(** * The image-generation request pipeline of [src/diffusion/qwen_server.py]

    A shallow embedding of the Flask handler [generate_image] (the
    [POST /generate] route) together with [upload_to_s3], followed by the
    properties of the pipeline: validation order, defaulting, prompt
    composition, key derivation and the mapping of failures to HTTP
    statuses.

    Python values that come out of [request.json] are modelled by [json];
    the request body and [os.environ] are finite maps; the model, the
    random generator, the S3 client, the clock and [uuid.uuid4] are
    collaborators the handler is parametrised over. *)

From Stdlib Require Import ZArith.
From Stdlib Require Import Floats.PrimFloat.
From stdpp Require Import gmap strings list fin_maps pretty.

Local Open Scope Z_scope.
Local Open Scope string_scope.

(** ** Python values *)

(** What [request.json] can hold.  Numbers keep Python's split between
    [int] and [float]; objects are dictionaries keyed by strings. *)
Inductive json : Type :=
| JNull
| JBool (b : bool)
| JInt (z : Z)
| JFloat (f : float)
| JStr (s : string)
| JArr (l : list json)
| JObj (m : gmap string json).

(** An exception: its class name and [str(e)]. *)
Record Exception : Type := mkExc { exc_type : string; exc_msg : string }.

(** The one-character string holding a double quote. *)
Definition dquote : string := String (Ascii.ascii_of_nat 34) EmptyString.

(** [bool(v)]: the test behind [if not prompt] and [all([...])]. *)
Definition truthy (v : json) : bool :=
  match v with
  | JNull => false
  | JBool b => b
  | JInt z => negb (z =? 0)%Z
  | JFloat f => negb (PrimFloat.eqb f 0%float)
  | JStr s => negb (String.eqb s "")
  | JArr l => match l with [] => false | _ :: _ => true end
  | JObj m => negb (Nat.eqb (size m) 0)
  end.

(** [type(v).__name__]. *)
Definition type_name (v : json) : string :=
  match v with
  | JNull => "NoneType"
  | JBool _ => "bool"
  | JInt _ => "int"
  | JFloat _ => "float"
  | JStr _ => "str"
  | JArr _ => "list"
  | JObj _ => "dict"
  end.

(** Looking up the bound method [data.get]: only a dict has one. *)
Definition as_dict (data : json) : Exception + gmap string json :=
  match data with
  | JObj d => inr d
  | _ => inl (mkExc "AttributeError"
                ("'" +:+ type_name data +:+ "' object has no attribute 'get'"))
  end.

(** [d.get(key, dflt)] on a dict. *)
Definition dict_get (d : gmap string json) (key : string) (dflt : json) : json :=
  default dflt (d !! key).

(** [os.getenv(key)]: [None] when the variable is unset. *)
Definition getenv (env : gmap string string) (key : string) : json :=
  match env !! key with
  | Some s => JStr s
  | None => JNull
  end.

(** [os.getenv(key, dflt)] with a string default. *)
Definition getenv_or (env : gmap string string) (key dflt : string) : json :=
  match env !! key with
  | Some s => JStr s
  | None => JStr dflt
  end.

(** [all([a, b, c])]. *)
Definition all_truthy (vs : list json) : bool := forallb truthy vs.

(** ** The aspect-ratio table (lines 101-109) *)

Definition aspect_ratios : list (string * (Z * Z)) :=
  [ ("1:1", (1328, 1328));
    ("16:9", (1024, 768));
    ("9:16", (928, 1664));
    ("4:3", (1472, 1140));
    ("3:4", (1140, 1472));
    ("3:2", (1584, 1056));
    ("2:3", (1056, 1584)) ].

(** [aspect_ratios[label]] for a string key; [None] when it is no key. *)
Fixpoint table_lookup (tbl : list (string * (Z * Z))) (label : string)
  : option (Z * Z) :=
  match tbl with
  | [] => None
  | (k, wh) :: rest => if String.eqb k label then Some wh else table_lookup rest label
  end.

(** [aspect_ratio not in aspect_ratios] followed by the subscript: the
    membership test hashes its operand, so a list or a dict raises
    [TypeError]; every other non-string value is simply no key. *)
Definition aspect_lookup (v : json) : Exception + option (Z * Z) :=
  match v with
  | JStr label => inr (table_lookup aspect_ratios label)
  | JArr _ => inl (mkExc "TypeError" "unhashable type: 'list'")
  | JObj _ => inl (mkExc "TypeError" "unhashable type: 'dict'")
  | _ => inr None
  end.

(** [repr] of a list of plain strings, as the f-string of line 112 prints
    [list(aspect_ratios.keys())]. *)
Fixpoint join_with (sep : string) (xs : list string) : string :=
  match xs with
  | [] => ""
  | [x] => x
  | x :: rest => x +:+ sep +:+ join_with sep rest
  end.

Definition repr_str_list (xs : list string) : string :=
  "[" +:+ join_with ", " (map (fun k => "'" +:+ k +:+ "'") xs) +:+ "]".

Definition allowed_labels : list string := map fst aspect_ratios.

(** ** The three validation messages *)

Definition msg_missing_prompt : string := "Missing required field: prompt".

Definition msg_missing_storage : string :=
  "S3 configuration missing. Provide in request or set in environment variables".

Definition msg_invalid_aspect : string :=
  "Invalid aspect ratio. Choose from: " +:+ repr_str_list allowed_labels.

(** ** Hardcoded defaults (lines 86, 94-99) *)

Definition default_negative_prompt : string :=
  "ugly, deformed, disfigured, poor details, bad anatomy".

Definition default_positive_magic : string := "Ultra HD, 4K, cinematic composition.".

Definition default_aspect_ratio : string := "16:9".

Definition default_region : string := "us-east-1".

Definition default_steps : Z := 50.

Definition default_cfg_scale : float := 4%float.

Definition default_seed : Z := 42.

(** ** Responses *)

Record Response : Type := mkResponse { status : Z; body : json }.

(** [jsonify({"error": msg}), code]. *)
Definition error_response (code : Z) (msg : string) : Response :=
  mkResponse code (JObj {[ "error" := JStr msg ]}).

(** ** Clock *)

Record DateTime : Type := mkDateTime {
  dt_year : nat; dt_month : nat; dt_day : nat;
  dt_hour : nat; dt_minute : nat; dt_second : nat
}.

(** A run of [k] zeros. *)
Fixpoint zeros (k : nat) : string :=
  match k with
  | O => ""
  | S k' => "0" +:+ zeros k'
  end.

(** Decimal digits of [n], left-padded with zeros to [width] places. *)
Definition zero_pad (width : nat) (n : nat) : string :=
  let s := pretty n in
  zeros (width - String.length s) +:+ s.

(** [strftime('%Y%m%d_%H%M%S')]. *)
Definition strftime (t : DateTime) : string :=
  zero_pad 4 (dt_year t) +:+ zero_pad 2 (dt_month t) +:+ zero_pad 2 (dt_day t)
  +:+ "_" +:+
  zero_pad 2 (dt_hour t) +:+ zero_pad 2 (dt_minute t) +:+ zero_pad 2 (dt_second t).

Inductive Device : Type := Cuda | Cpu.

(** ** The handler, over its collaborators *)

Section Pipeline.

(** The image type of the model and torch's generator type are opaque. *)
Variables Image Generator : Type.

(** Keyword arguments of the call [pipe(...)] (lines 119-127). *)
Record PipeArgs : Type := mkPipeArgs {
  pa_prompt : string;
  pa_negative_prompt : json;
  pa_width : Z;
  pa_height : Z;
  pa_num_inference_steps : json;
  pa_true_cfg_scale : json;
  pa_generator : Generator
}.

(** Arguments of [upload_to_s3] (line 133). *)
Record UploadArgs : Type := mkUploadArgs {
  up_image : Image;
  up_bucket : json;
  up_key : json;
  up_access_key_id : json;
  up_secret_access_key : json;
  up_region : json
}.

(** What the outside world observes of one request. *)
Inductive Event : Type :=
| GatewayCall (a : PipeArgs)
| SinkCall (u : UploadArgs).

Record Collaborators : Type := mkCollaborators {
  (** [int(s)] and [float(s)] on a string from the environment. *)
  int_of_str : string → Exception + Z;
  float_of_str : string → Exception + float;
  (** [str(v)] of a value that is not a string (f-string of line 60). *)
  py_repr : json → string;
  (** [torch.cuda.is_available()]. *)
  cuda_is_available : bool;
  (** The global [pipe]: [None] until [initialize_model] has run. *)
  pipe : option (PipeArgs → Exception + list Image);
  (** [torch.Generator(device=device).manual_seed(seed)]. *)
  manual_seed : Device → json → Exception + Generator;
  (** [boto3.client], [image.save] and [upload_fileobj] of lines 42-58:
      [None] when the object was stored. *)
  s3_upload : UploadArgs → option Exception
}.

(** The part of the process a request can change or read: the calls made
    so far, the wall clock, and the identifiers [uuid4] will hand out. *)
Record World : Type := mkWorld {
  calls : list Event;
  clock : DateTime;
  uuid_pool : nat → string
}.

(** Computations that read and extend the world and may raise. *)
Definition M (A : Type) : Type := World → (Exception + A) * World.

Definition ret {A} (a : A) : M A := fun w => (inr a, w).

Definition raise {A} (e : Exception) : M A := fun w => (inl e, w).

Definition bind {A B} (c : M A) (k : A → M B) : M B :=
  fun w => match c w with
           | (inr a, w') => k a w'
           | (inl e, w') => (inl e, w')
           end.

Definition lift {A} (r : Exception + A) : M A :=
  match r with
  | inr a => ret a
  | inl e => raise e
  end.

(** The world after one more observed call. *)
Definition with_call (w : World) (ev : Event) : World :=
  mkWorld (calls w ++ [ev]) (clock w) (uuid_pool w).

(** The world after [uuid4] has handed out its next identifier. *)
Definition after_uuid (w : World) : World :=
  mkWorld (calls w) (clock w) (fun n => uuid_pool w (S n)).

Definition emit (ev : Event) : M unit := fun w => (inr tt, with_call w ev).

(** [str(uuid.uuid4())]: the next identifier of the pool. *)
Definition uuid4 : M string := fun w => (inr (uuid_pool w 0%nat), after_uuid w).

(** [datetime.now()]. *)
Definition now : M DateTime := fun w => (inr (clock w), w).

Notation "x <- c ;; k" := (bind c (fun x => k))
  (at level 100, c at next level, right associativity).

Variable X : Collaborators.

(** The process environment, after [load_dotenv()]. *)
Variable env : gmap string string.

(** [int(os.getenv(key, dflt))] with an integer default. *)
Definition int_env (key : string) (dflt : Z) : Exception + Z :=
  match env !! key with
  | Some s => int_of_str X s
  | None => inr dflt
  end.

(** [float(os.getenv(key, dflt))] with a float default. *)
Definition float_env (key : string) (dflt : float) : Exception + float :=
  match env !! key with
  | Some s => float_of_str X s
  | None => inr dflt
  end.

(** The local variables of [generate_image] once line 114 is passed. *)
Record Resolved : Type := mkResolved {
  r_prompt : json;
  r_s3_bucket : json;
  r_aws_access_key_id : json;
  r_aws_secret_access_key : json;
  r_aws_region : json;
  r_negative_prompt : json;
  r_positive_magic : json;
  r_aspect_ratio : json;
  r_num_inference_steps : json;
  r_true_cfg_scale : json;
  r_seed : json;
  r_width : Z;
  r_height : Z
}.

(** Lines 75-114.  [inl e]: an exception was raised; [inr (inl resp)]: the
    handler returned [resp] early; [inr (inr r)]: the locals. *)
Definition resolve (request_json : Exception + json)
  : Exception + (Response + Resolved) :=
  match request_json with
  | inl e => inl e
  | inr data =>
    match as_dict data with
    | inl e => inl e
    | inr d =>
      let prompt := dict_get d "prompt" JNull in
      if negb (truthy prompt) then
        inr (inl (error_response 400 msg_missing_prompt))
      else
        let s3_bucket := dict_get d "s3_bucket" (getenv env "S3_BUCKET") in
        let aws_access_key_id :=
          dict_get d "aws_access_key_id" (getenv env "AWS_ACCESS_KEY_ID") in
        let aws_secret_access_key :=
          dict_get d "aws_secret_access_key" (getenv env "AWS_SECRET_ACCESS_KEY") in
        let aws_region :=
          dict_get d "aws_region" (getenv_or env "AWS_REGION" default_region) in
        if negb (all_truthy [s3_bucket; aws_access_key_id; aws_secret_access_key]) then
          inr (inl (error_response 400 msg_missing_storage))
        else
          let negative_prompt :=
            dict_get d "negative_prompt" (JStr default_negative_prompt) in
          let positive_magic :=
            dict_get d "positive_magic" (JStr default_positive_magic) in
          let aspect_ratio := dict_get d "aspect_ratio" (JStr default_aspect_ratio) in
          match int_env "NUM_INFERENCE_STEPS" default_steps with
          | inl e => inl e
          | inr env_steps =>
            let num_inference_steps :=
              dict_get d "num_inference_steps" (JInt env_steps) in
            match float_env "TRUE_CFG_SCALE" default_cfg_scale with
            | inl e => inl e
            | inr env_cfg =>
              let true_cfg_scale := dict_get d "true_cfg_scale" (JFloat env_cfg) in
              match int_env "DEFAULT_SEED" default_seed with
              | inl e => inl e
              | inr env_seed =>
                let seed := dict_get d "seed" (JInt env_seed) in
                match aspect_lookup aspect_ratio with
                | inl e => inl e
                | inr None => inr (inl (error_response 400 msg_invalid_aspect))
                | inr (Some (width, height)) =>
                  inr (inr (mkResolved prompt s3_bucket aws_access_key_id
                              aws_secret_access_key aws_region negative_prompt
                              positive_magic aspect_ratio num_inference_steps
                              true_cfg_scale seed width height))
                end
              end
            end
          end
    end
  end.

(** [prompt[:100]] inside the log line 116: strings and lists slice, the
    other truthy values raise. *)
Definition log_slice (prompt : json) : Exception + unit :=
  match prompt with
  | JStr _ | JArr _ => inr tt
  | JObj _ => inl (mkExc "TypeError" "unhashable type: 'slice'")
  | _ => inl (mkExc "TypeError"
                ("'" +:+ type_name prompt +:+ "' object is not subscriptable"))
  end.

(** [prompt + " " + positive_magic] (line 120). *)
Definition compose_prompt (prompt positive_magic : json) : Exception + string :=
  match prompt with
  | JStr p =>
    match positive_magic with
    | JStr m => inr (p +:+ " " +:+ m)
    | _ => inl (mkExc "TypeError"
                  ("can only concatenate str (not " +:+ dquote
                   +:+ type_name positive_magic +:+ dquote +:+ ") to str"))
    end
  | JArr _ => inl (mkExc "TypeError" ("can only concatenate list (not " +:+ dquote +:+ "str"
                              +:+ dquote +:+ ") to list"))
  | _ => inl (mkExc "TypeError"
                ("unsupported operand type(s) for +: '" +:+ type_name prompt
                 +:+ "' and 'str'"))
  end.

Definition device : Device := if cuda_is_available X then Cuda else Cpu.

(** The keyword arguments of lines 120-126, evaluated left to right. *)
Definition gateway_args (r : Resolved) : Exception + PipeArgs :=
  match compose_prompt (r_prompt r) (r_positive_magic r) with
  | inl e => inl e
  | inr text =>
    match manual_seed X device (r_seed r) with
    | inl e => inl e
    | inr g =>
      inr (mkPipeArgs text (r_negative_prompt r) (r_width r) (r_height r)
             (r_num_inference_steps r) (r_true_cfg_scale r) g)
    end
  end.

(** Calling the global [pipe] and taking [.images[0]]. *)
Definition call_pipe (a : PipeArgs) : M Image :=
  match pipe X with
  | None => raise (mkExc "TypeError" "'NoneType' object is not callable")
  | Some model =>
    _ <- emit (GatewayCall a) ;;
    images <- lift (model a) ;;
    match images with
    | img :: _ => ret img
    | [] => raise (mkExc "IndexError" "list index out of range")
    end
  end.

(** Lines 116-127. *)
Definition invoke (r : Resolved) : M Image :=
  _ <- lift (log_slice (r_prompt r)) ;;
  a <- lift (gateway_args r) ;;
  call_pipe a.

(** [str(v)] as an f-string applies it. *)
Definition py_str (v : json) : string :=
  match v with
  | JStr s => s
  | _ => py_repr X v
  end.

(** [upload_to_s3] (lines 40-66); a [ClientError] is logged and re-raised,
    any other exception passes through. *)
Definition upload_to_s3 (u : UploadArgs) : M string :=
  _ <- emit (SinkCall u) ;;
  match s3_upload X u with
  | Some e => raise e
  | None =>
    ret ("https://" +:+ py_str (up_bucket u) +:+ ".s3." +:+ py_str (up_region u)
         +:+ ".amazonaws.com/" +:+ py_str (up_key u))
  end.

(** The key the f-string of line 131 builds. *)
Definition derived_key (timestamp image_id : string) : string :=
  "generated_images/" +:+ timestamp +:+ "_" +:+ image_id +:+ ".png".

(** The success payload of lines 135-149. *)
Definition success_body (r : Resolved) (s3_url : string) (s3_key : json)
    (timestamp : string) : json :=
  JObj (list_to_map
    [ ("success", JBool true);
      ("image_url", JStr s3_url);
      ("s3_bucket", r_s3_bucket r);
      ("s3_key", s3_key);
      ("metadata", JObj (list_to_map
         [ ("prompt", r_prompt r);
           ("negative_prompt", r_negative_prompt r);
           ("aspect_ratio", r_aspect_ratio r);
           ("width", JInt (r_width r));
           ("height", JInt (r_height r));
           ("seed", r_seed r);
           ("timestamp", JStr timestamp) ])) ]).

(** Lines 129-149, for the dict [d] of the request. *)
Definition persist_and_respond (d : gmap string json) (r : Resolved) (image : Image)
  : M Response :=
  image_id <- uuid4 ;;
  t <- now ;;
  let timestamp := strftime t in
  let s3_key := dict_get d "s3_key" (JStr (derived_key timestamp image_id)) in
  s3_url <- upload_to_s3 (mkUploadArgs image (r_s3_bucket r) s3_key
                           (r_aws_access_key_id r) (r_aws_secret_access_key r)
                           (r_aws_region r)) ;;
  ret (mkResponse 200 (success_body r s3_url s3_key timestamp)).

(** The dict behind a request that got past line 78. *)
Definition request_dict (request_json : Exception + json) : gmap string json :=
  match request_json with
  | inr (JObj d) => d
  | _ => ∅
  end.

(** The body of the [try] block (lines 75-149). *)
Definition generate_image_try (request_json : Exception + json) : M Response :=
  o <- lift (resolve request_json) ;;
  match o with
  | inl early => ret early
  | inr r =>
    image <- invoke r ;;
    persist_and_respond (request_dict request_json) r image
  end.

(** The route: [except Exception as e] turns every exception into a 500
    carrying [str(e)] (lines 151-153). *)
Definition generate_image (request_json : Exception + json) (w : World)
  : Response * World :=
  match generate_image_try request_json w with
  | (inr resp, w') => (resp, w')
  | (inl e, w') => (error_response 500 (exc_msg e), w')
  end.

End Pipeline.

Arguments mkPipeArgs {Generator}.
Arguments pa_prompt {Generator}.
Arguments pa_negative_prompt {Generator}.
Arguments pa_width {Generator}.
Arguments pa_height {Generator}.
Arguments pa_num_inference_steps {Generator}.
Arguments pa_true_cfg_scale {Generator}.
Arguments pa_generator {Generator}.
Arguments mkUploadArgs {Image}.
Arguments up_image {Image}.
Arguments up_bucket {Image}.
Arguments up_key {Image}.
Arguments up_access_key_id {Image}.
Arguments up_secret_access_key {Image}.
Arguments up_region {Image}.
Arguments GatewayCall {Image Generator}.
Arguments SinkCall {Image Generator}.
Arguments mkCollaborators {Image Generator}.
Arguments int_of_str {Image Generator}.
Arguments float_of_str {Image Generator}.
Arguments py_repr {Image Generator}.
Arguments cuda_is_available {Image Generator}.
Arguments pipe {Image Generator}.
Arguments manual_seed {Image Generator}.
Arguments s3_upload {Image Generator}.
Arguments mkWorld {Image Generator}.
Arguments calls {Image Generator}.
Arguments clock {Image Generator}.
Arguments uuid_pool {Image Generator}.
Arguments ret {Image Generator A}.
Arguments raise {Image Generator A}.
Arguments bind {Image Generator A B}.
Arguments lift {Image Generator A}.
Arguments with_call {Image Generator}.
Arguments after_uuid {Image Generator}.
Arguments emit {Image Generator}.
Arguments uuid4 {Image Generator}.
Arguments now {Image Generator}.
Arguments int_env {Image Generator}.
Arguments float_env {Image Generator}.
Arguments resolve {Image Generator}.
Arguments device {Image Generator}.
Arguments gateway_args {Image Generator}.
Arguments call_pipe {Image Generator}.
Arguments invoke {Image Generator}.
Arguments py_str {Image Generator}.
Arguments upload_to_s3 {Image Generator}.
Arguments persist_and_respond {Image Generator}.
Arguments generate_image_try {Image Generator}.
Arguments generate_image {Image Generator}.

(** The values the specification gathers in a resolved job: the composed
    prompt, the negative prompt, the resolution, the step count, the
    guidance scale and the seed. *)
Record ResolvedJob : Type := mkJob {
  job_prompt : string;
  job_negative_prompt : json;
  job_width : Z;
  job_height : Z;
  job_steps : json;
  job_guidance_scale : json;
  job_seed : json
}.

Definition resolved_job (r : Resolved) : Exception + ResolvedJob :=
  match compose_prompt (r_prompt r) (r_positive_magic r) with
  | inl e => inl e
  | inr text =>
    inr (mkJob text (r_negative_prompt r) (r_width r) (r_height r)
           (r_num_inference_steps r) (r_true_cfg_scale r) (r_seed r))
  end.

(** ** Start-up and health (lines 21-38, 68-70, 155-158) *)

(** The two precisions [initialize_model] chooses between. *)
Inductive Dtype : Type := BFloat16 | Float32.

(** The module-level [model_name = os.getenv('MODEL_NAME', 'Qwen/Qwen-Image')]. *)
Definition model_name (env : gmap string string) : string :=
  default "Qwen/Qwen-Image" (env !! "MODEL_NAME").

(** [health_check]: [jsonify({"status": "healthy", "model": model_name}), 200]. *)
Definition health_check (env : gmap string string) : Response :=
  mkResponse 200
    (JObj {[ "status" := JStr "healthy"; "model" := JStr (model_name env) ]}).

Section Startup.

Variables Image Generator : Type.

(** [DiffusionPipeline.from_pretrained] and [pipe.to]; a pipeline is the
    callable the handler later applies. *)
Record Loader : Type := mkLoader {
  from_pretrained :
    string → Dtype → Exception + (PipeArgs Generator → Exception + list Image);
  to_device :
    (PipeArgs Generator → Exception + list Image) → Device →
    Exception + (PipeArgs Generator → Exception + list Image)
}.

(** The process with the global [pipe] rebound. *)
Definition set_pipe (X : Collaborators Image Generator)
    (p : option (PipeArgs Generator → Exception + list Image))
  : Collaborators Image Generator :=
  mkCollaborators (int_of_str X) (float_of_str X) (py_repr X) (cuda_is_available X)
    p (manual_seed X) (s3_upload X).

(** [initialize_model] (lines 24-38): the outcome and the process it
    leaves.  The global is bound by line 36 already, before line 37
    moves the pipeline. *)
Definition initialize_model (L : Loader) (X : Collaborators Image Generator)
    (env : gmap string string)
  : (Exception + unit) * Collaborators Image Generator :=
  let '(torch_dtype, dev) :=
    if cuda_is_available X then (BFloat16, Cuda) else (Float32, Cpu) in
  match from_pretrained L (model_name env) torch_dtype with
  | inl e => (inl e, X)
  | inr loaded =>
    match to_device L loaded dev with
    | inl e => (inl e, set_pipe X (Some loaded))
    | inr moved => (inr tt, set_pipe X (Some moved))
    end
  end.

(** The [__main__] block (lines 155-158) up to [app.run]: the process
    that serves and the port it listens on. *)
Definition main (L : Loader) (X : Collaborators Image Generator)
    (env : gmap string string)
  : Exception + (Collaborators Image Generator * Z) :=
  match initialize_model L X env with
  | (inl e, _) => inl e
  | (inr _, X') =>
    match int_env X' env "PORT" 8080 with
    | inl e => inl e
    | inr port => inr (X', port)
    end
  end.

End Startup.

Arguments mkLoader {Image Generator}.
Arguments from_pretrained {Image Generator}.
Arguments to_device {Image Generator}.
Arguments set_pipe {Image Generator}.
Arguments initialize_model {Image Generator}.
Arguments main {Image Generator}.

(** ** Timestamps in range *)

(** Every number below 10000 prints in at most four digits, every number
    below 100 in at most two. *)
Definition digits_at_most (k bound : nat) : bool :=
  forallb (λ n, Nat.leb (String.length (pretty n)) k) (seq 0 bound).

(** The ranges [datetime] keeps its fields in. *)
Definition valid_datetime (t : DateTime) : Prop :=
  (1000 ≤ Z.of_nat (dt_year t) ≤ 9999)%Z ∧ (1 ≤ dt_month t ≤ 12)%nat ∧
  (1 ≤ dt_day t ≤ 31)%nat ∧ (dt_hour t < 24)%nat ∧
  (dt_minute t < 60)%nat ∧ (dt_second t < 60)%nat.

(** Reading a run of decimal digits back as a number. *)
Fixpoint digits_to_N (acc : N) (s : string) : N :=
  match s with
  | EmptyString => acc
  | String c rest => digits_to_N (10 * acc + (Ascii.N_of_ascii c - 48))%N rest
  end.

(** Every number below [bound], padded to [k] places, reads back as
    itself. *)
Definition reads_back (k bound : nat) : bool :=
  forallb (λ n, N.eqb (digits_to_N 0%N (zero_pad k n)) (N.of_nat n)) (seq 0 bound).

(** A decimal digit. *)
Definition is_digit (c : Ascii.ascii) : bool :=
  (Nat.leb 48 (Ascii.nat_of_ascii c) && Nat.leb (Ascii.nat_of_ascii c) 57)%bool.

Fixpoint all_digits (s : string) : bool :=
  match s with
  | EmptyString => true
  | String c rest => (is_digit c && all_digits rest)%bool
  end.

(** [s] is the number [n] written in exactly [k] decimal digits. *)
Definition decimal (k n : nat) (s : string) : Prop :=
  String.length s = k ∧ all_digits s = true ∧ digits_to_N 0%N s = N.of_nat n.

(** [x], padded to [k] places, is [x] written in exactly [k] decimal
    digits. *)
Definition pads_to_decimal (k : nat) (x : N) : bool :=
  let s := pretty x in
  let padded := zeros (k - String.length s) +:+ s in
  (Nat.eqb (String.length padded) k && all_digits padded
   && N.eqb (digits_to_N 0%N padded) x)%bool.

(** The same of the [count] numbers from [x] on. *)
Fixpoint pads_to_decimal_from (k count : nat) (x : N) : bool :=
  match count with
  | O => true
  | S count' => (pads_to_decimal k x && pads_to_decimal_from k count' (N.succ x))%bool
  end.

(** ** A concrete deployment, for running the handler *)

Module Sample.

(** Plain decimal literals, the only environment values the sample
    deployment sets. *)
Definition digit_value (c : Ascii.ascii) : option Z :=
  let n := Z.of_nat (Ascii.nat_of_ascii c) in
  if ((48 <=? n)%Z && (n <=? 57)%Z)%bool then Some (n - 48) else None.

Fixpoint digits_value (acc : Z) (s : string) : option Z :=
  match s with
  | EmptyString => Some acc
  | String c rest =>
    match digit_value c with
    | Some v => digits_value (10 * acc + v) rest
    | None => None
    end
  end.

Definition int_of_str (s : string) : Exception + Z :=
  match s with
  | EmptyString => inl (mkExc "ValueError" "invalid literal for int() with base 10: ''")
  | _ =>
    match digits_value 0 s with
    | Some z => inr z
    | None => inl (mkExc "ValueError"
                     ("invalid literal for int() with base 10: '" +:+ s +:+ "'"))
    end
  end.

Definition float_of_str (s : string) : Exception + float :=
  if String.eqb s "7.5" then inr 7.5%float
  else if String.eqb s "4.0" then inr 4%float
  else if String.eqb s "7" then inr 7%float
  else inl (mkExc "ValueError" ("could not convert string to float: '" +:+ s +:+ "'")).

(** A generator is known by its device and seed. *)
Definition manual_seed (dev : Device) (seed : json) : Exception + (Device * Z) :=
  match seed with
  | JInt z => inr (dev, z)
  | _ => inl (mkExc "TypeError"
                ("manual_seed(): argument 'seed' must be int, not " +:+ type_name seed))
  end.

(** A model that returns one image, named after its prompt. *)
Definition model (a : PipeArgs (Device * Z)) : Exception + list string :=
  inr ["image of " +:+ pa_prompt a].

Definition collaborators : Collaborators string (Device * Z) :=
  mkCollaborators int_of_str float_of_str (fun _ => "?") false (Some model)
    manual_seed (fun _ => None).






Definition storage_env : gmap string string :=
  {[ "S3_BUCKET" := "bucket";
     "AWS_ACCESS_KEY_ID" := "AKIA";
     "AWS_SECRET_ACCESS_KEY" := "secret" ]}.

Definition noon : DateTime := mkDateTime 2025 3 9 12 0 7.

Definition world0 : World string (Device * Z) :=
  mkWorld [] noon (fun n => "uuid-" +:+ pretty n).

Definition bicycle : gmap string json := {[ "prompt" := JStr "a red bicycle" ]}.

(** Requests and environments the statements below are run on. *)

Definition empty_prompt : gmap string json :=
  {[ "prompt" := JStr ""; "aspect_ratio" := JStr "1:1" ]}.

Definition scenario_B : gmap string json :=
  {[ "prompt" := JStr "x"; "aspect_ratio" := JStr "5:4" ]}.

Definition lighthouse : gmap string json :=
  {[ "prompt" := JStr "a lighthouse at dusk";
     "aspect_ratio" := JStr "21:9";
     "aws_access_key_id" := JStr "AKIA";
     "aws_secret_access_key" := JStr "secret" ]}.

Definition region_env : gmap string string := {[ "AWS_REGION" := "eu-west-1" ]}.

Definition empty_bucket : gmap string json :=
  {[ "prompt" := JStr "x"; "s3_bucket" := JStr "" ]}.

Definition portrait : gmap string json :=
  {[ "prompt" := JStr "a portrait"; "aspect_ratio" := JStr "9:16" ]}.

Definition no_magic : gmap string json :=
  {[ "prompt" := JStr "a red bicycle"; "positive_magic" := JStr "" ]}.

Definition split_early : gmap string json :=
  {[ "prompt" := JStr "a"; "positive_magic" := JStr "red bicycle" ]}.

Definition split_late : gmap string json :=
  {[ "prompt" := JStr "a red"; "positive_magic" := JStr "bicycle" ]}.

(** A request that brings its own storage configuration. *)
Definition self_contained : gmap string json :=
  {[ "prompt" := JStr "a red bicycle";
     "s3_bucket" := JStr "bucket";
     "aws_access_key_id" := JStr "AKIA";
     "aws_secret_access_key" := JStr "secret" ]}.

(** A request that sets the seed, under an environment that sets the
    step count, the guidance scale and the region. *)
Definition seeded : gmap string json :=
  {[ "prompt" := JStr "a red bicycle"; "seed" := JInt 7 ]}.

Definition tuned_env : gmap string string :=
  {[ "S3_BUCKET" := "bucket";
     "AWS_ACCESS_KEY_ID" := "AKIA";
     "AWS_SECRET_ACCESS_KEY" := "secret";
     "NUM_INFERENCE_STEPS" := "30";
     "TRUE_CFG_SCALE" := "7.5";
     "AWS_REGION" := "eu-west-1" ]}.

Definition resolved (prompt magic : string) : Resolved :=
  mkResolved (JStr prompt) (JStr "bucket") (JStr "AKIA") (JStr "secret")
    (JStr "us-east-1") (JStr default_negative_prompt) (JStr magic) (JStr "16:9")
    (JInt 50) (JFloat 4%float) (JInt 42) 1024 768.

Definition bicycle_args (text : string) : PipeArgs (Device * Z) :=
  mkPipeArgs text (JStr default_negative_prompt) 1024 768 (JInt 50) (JFloat 4%float)
    (Cpu, 42).

Definition bicycle_upload : UploadArgs string :=
  mkUploadArgs "image of a red bicycle Ultra HD, 4K, cinematic composition."
    (JStr "bucket") (JStr "generated_images/20250309_120007_uuid-0.png")
    (JStr "AKIA") (JStr "secret") (JStr "us-east-1").

Definition portrait_upload : UploadArgs string :=
  mkUploadArgs "image of a portrait Ultra HD, 4K, cinematic composition."
    (JStr "bucket") (JStr "generated_images/20250309_120007_uuid-1.png")
    (JStr "AKIA") (JStr "secret") (JStr "us-east-1").

Definition bicycle_job : ResolvedJob :=
  mkJob "a red bicycle" (JStr default_negative_prompt) 1024 768 (JInt 50)
    (JFloat 4%float) (JInt 42).

(** The world as the next request finds it, within the same second. *)
Definition world1 : World string (Device * Z) :=
  mkWorld
    (calls (snd (generate_image collaborators storage_env (inr (JObj bicycle)) world0)))
    noon
    (uuid_pool (snd (generate_image collaborators storage_env (inr (JObj bicycle)) world0))).

End Sample.

(** ** Requests and deployments off the usual path *)

Module Edge.

Definition zero_prompt : gmap string json := {[ "prompt" := JInt 0 ]}.

Definition numeric_prompt : gmap string json := {[ "prompt" := JInt 7 ]}.

Definition numeric_resolved : Resolved :=
  mkResolved (JInt 7) (JStr "bucket") (JStr "AKIA") (JStr "secret")
    (JStr "us-east-1") (JStr default_negative_prompt) (JStr default_positive_magic)
    (JStr "16:9") (JInt 50) (JFloat 4%float) (JInt 42) 1024 768.

(** An environment whose step count is spelled out. *)
Definition spelled_env : gmap string string :=
  <["NUM_INFERENCE_STEPS" := "fifty"]> Sample.storage_env.

Definition spelled_error : Exception :=
  mkExc "ValueError" "invalid literal for int() with base 10: 'fifty'".

Definition listed_aspect : gmap string json :=
  {[ "prompt" := JStr "a red bicycle"; "aspect_ratio" := JArr [JInt 16; JInt 9] ]}.

Definition null_aspect : gmap string json :=
  {[ "prompt" := JStr "a red bicycle"; "aspect_ratio" := JNull ]}.

(** A request that names its own key. *)
Definition own_key : gmap string json :=
  {[ "prompt" := JStr "a red bicycle"; "s3_key" := JStr "out/bicycle.png" ]}.

(** A request whose numbers are not numbers. *)
Definition tuned : gmap string json :=
  {[ "prompt" := JStr "a red bicycle";
     "num_inference_steps" := JStr "fifty";
     "true_cfg_scale" := JInt 7;
     "seed" := JInt 7 ]}.

Definition tuned_args : PipeArgs (Device * Z) :=
  mkPipeArgs "a red bicycle Ultra HD, 4K, cinematic composition."
    (JStr default_negative_prompt) 1024 768 (JStr "fifty") (JInt 7) (Cpu, 7).

(** A model that returns two images, and one that returns none. *)
Definition two_image_model (a : PipeArgs (Device * Z)) : Exception + list string :=
  inr ["first of " +:+ pa_prompt a; "second of " +:+ pa_prompt a].

Definition two_images : Collaborators string (Device * Z) :=
  mkCollaborators Sample.int_of_str Sample.float_of_str (fun _ => "?") false
    (Some two_image_model) Sample.manual_seed (fun _ => None).

Definition no_image_model (a : PipeArgs (Device * Z)) : Exception + list string :=
  inr [].

Definition no_images : Collaborators string (Device * Z) :=
  mkCollaborators Sample.int_of_str Sample.float_of_str (fun _ => "?") false
    (Some no_image_model) Sample.manual_seed (fun _ => None).

(** The process on a CUDA machine before [initialize_model] has run. *)
Definition unloaded : Collaborators string (Device * Z) :=
  mkCollaborators Sample.int_of_str Sample.float_of_str (fun _ => "?") true
    None Sample.manual_seed (fun _ => None).

Definition cuda_args : PipeArgs (Device * Z) :=
  mkPipeArgs "a red bicycle Ultra HD, 4K, cinematic composition."
    (JStr default_negative_prompt) 1024 768 (JInt 50) (JFloat 4%float) (Cuda, 42).

(** A hub that knows one model and moves it to any device. *)
Definition loader : Loader string (Device * Z) :=
  mkLoader
    (fun name _ =>
       if String.eqb name "Qwen/Qwen-Image" then inr Sample.model
       else inl (mkExc "OSError" (name +:+ " is not a valid model identifier")))
    (fun p _ => inr p).

(** One second past [Sample.noon]. *)
Definition next_second : DateTime := mkDateTime 2025 3 9 12 0 8.

End Edge.

(** * Properties of the pipeline *)

Section Properties.

Context {Image Generator : Type}.
Variable X : Collaborators Image Generator.

Implicit Types (env : gmap string string) (d : gmap string json).
Implicit Types (w : World Image Generator) (r : Resolved).

(** ** Vocabulary of the statements *)

(** The calls a request adds to those the world had already seen. *)
Definition observed env (request_json : Exception + json) w
  : list (Event Image Generator) :=
  drop (length (calls w)) (calls (snd (generate_image X env request_json w))).

(** The storage triple as line 89 sees it. *)
Definition storage_fields env d : list json :=
  [ dict_get d "s3_bucket" (getenv env "S3_BUCKET");
    dict_get d "aws_access_key_id" (getenv env "AWS_ACCESS_KEY_ID");
    dict_get d "aws_secret_access_key" (getenv env "AWS_SECRET_ACCESS_KEY") ].

(** The key line 131 settles on: the caller's, else the derived one. *)
Definition chosen_key (req : Exception + json) w : json :=
  dict_get (request_dict req) "s3_key"
    (JStr (derived_key (strftime (clock w)) (uuid_pool w 0%nat))).

(** The arguments line 133 passes to [upload_to_s3]. *)
Definition upload_args (req : Exception + json) r (image : Image) w
  : UploadArgs Image :=
  mkUploadArgs image (r_s3_bucket r) (chosen_key req w) (r_aws_access_key_id r)
    (r_aws_secret_access_key r) (r_aws_region r).

(** The URL [upload_to_s3] returns for those arguments. *)
Definition s3_url_of (u : UploadArgs Image) : string :=
  "https://" +:+ py_str X (up_bucket u) +:+ ".s3." +:+ py_str X (up_region u)
  +:+ ".amazonaws.com/" +:+ py_str X (up_key u).

Definition error_no_model : Exception :=
  mkExc "TypeError" "'NoneType' object is not callable".

Definition error_no_image : Exception :=
  mkExc "IndexError" "list index out of range".

(** What the client receives for the outcome of the [try] block: the
    response it returned, or the 500 of lines 151-153. *)
Definition answer (o : Exception + Response) : Response :=
  match o with
  | inr resp => resp
  | inl e => error_response 500 (exc_msg e)
  end.

(** [Run env req w o w']: the [try] block ends in [o] (a response, or an
    exception) and leaves the world [w'].  One constructor per path
    through lines 75-149. *)
Inductive Run env (req : Exception + json) w
  : Exception + Response → World Image Generator → Prop :=
| RunEarly resp :
    resolve X env req = inr (inl resp) →
    Run env req w (inr resp) w
| RunResolveRaises e :
    resolve X env req = inl e →
    Run env req w (inl e) w
| RunLogRaises r e :
    resolve X env req = inr (inr r) →
    log_slice (r_prompt r) = inl e →
    Run env req w (inl e) w
| RunArgsRaise r e :
    resolve X env req = inr (inr r) →
    log_slice (r_prompt r) = inr tt →
    gateway_args X r = inl e →
    Run env req w (inl e) w
| RunNoModel r a :
    resolve X env req = inr (inr r) →
    log_slice (r_prompt r) = inr tt →
    gateway_args X r = inr a →
    pipe X = None →
    Run env req w (inl error_no_model) w
| RunModelRaises r a model e :
    resolve X env req = inr (inr r) →
    log_slice (r_prompt r) = inr tt →
    gateway_args X r = inr a →
    pipe X = Some model →
    model a = inl e →
    Run env req w (inl e) (with_call w (GatewayCall a))
| RunNoImage r a model :
    resolve X env req = inr (inr r) →
    log_slice (r_prompt r) = inr tt →
    gateway_args X r = inr a →
    pipe X = Some model →
    model a = inr [] →
    Run env req w (inl error_no_image) (with_call w (GatewayCall a))
| RunUploadRaises r a model image rest e :
    resolve X env req = inr (inr r) →
    log_slice (r_prompt r) = inr tt →
    gateway_args X r = inr a →
    pipe X = Some model →
    model a = inr (image :: rest) →
    s3_upload X (upload_args req r image w) = Some e →
    Run env req w (inl e)
      (with_call (after_uuid (with_call w (GatewayCall a)))
         (SinkCall (upload_args req r image w)))
| RunSuccess r a model image rest :
    resolve X env req = inr (inr r) →
    log_slice (r_prompt r) = inr tt →
    gateway_args X r = inr a →
    pipe X = Some model →
    model a = inr (image :: rest) →
    s3_upload X (upload_args req r image w) = None →
    Run env req w
      (inr (mkResponse 200
         (success_body r (s3_url_of (upload_args req r image w)) (chosen_key req w)
            (strftime (clock w)))))
      (with_call (after_uuid (with_call w (GatewayCall a)))
         (SinkCall (upload_args req r image w))).

(** Reading the message back out of an error payload. *)
Definition error_message (resp : Response) : option json :=
  match body resp with
  | JObj m => m !! "error"
  | _ => None
  end.

(** The order the specification gives: a request with a prompt and an
    aspect ratio outside the table is answered with the aspect-ratio
    error. *)
Definition aspect_checked_before_storage env d w : Prop :=
  truthy (dict_get d "prompt" JNull) = true →
  aspect_lookup (dict_get d "aspect_ratio" (JStr default_aspect_ratio)) = inr None →
  fst (generate_image X env (inr (JObj d)) w) = error_response 400 msg_invalid_aspect.

(** [v] is one of the seven labels. *)
Definition aspect_key (v : json) : Prop :=
  ∃ label wh, v = JStr label ∧ (label, wh) ∈ aspect_ratios.

(** [v] can be hashed: the membership test of line 111 does not raise. *)
Definition hashable (v : json) : Prop :=
  match v with
  | JArr _ | JObj _ => False
  | _ => True
  end.

(** The request gets as far as line 111. *)
Definition reaches_aspect_check env d : Prop :=
  truthy (dict_get d "prompt" JNull) = true ∧
  all_truthy (storage_fields env d) = true ∧
  (∃ n, int_env X env "NUM_INFERENCE_STEPS" default_steps = inr n) ∧
  (∃ f, float_env X env "TRUE_CFG_SCALE" default_cfg_scale = inr f) ∧
  (∃ n, int_env X env "DEFAULT_SEED" default_seed = inr n).

(** What the specification asks of every request with an aspect ratio
    outside the table. *)
Definition invalid_aspect_always_reported env d w : Prop :=
  ¬ aspect_key (dict_get d "aspect_ratio" (JStr default_aspect_ratio)) →
  fst (generate_image X env (inr (JObj d)) w) = error_response 400 msg_invalid_aspect.



(** A field the request may set, with a literal behind it. *)
Definition request_or_literal d (key : string) (literal res : json) : Prop :=
  (∀ v, d !! key = Some v → res = v) ∧
  (d !! key = None → res = literal).

(** A field the request may set, with the environment behind it (converted
    by [conv]) and a literal behind that. *)
Definition request_env_literal {A} d env (key var : string)
    (conv : string → Exception + A) (inj : A → json) (literal : A) (res : json)
  : Prop :=
  (∀ v, d !! key = Some v → res = v) ∧
  (d !! key = None → ∀ s, env !! var = Some s → ∃ x, conv s = inr x ∧ res = inj x) ∧
  (d !! key = None → env !! var = None → res = inj literal).

(** The specification's reading of "taken from the environment default"
    for a text field: there is an environment variable whose value the
    field takes whenever the request leaves the field out. *)
Definition environment_supplies (field : Resolved → json) (key : string) : Prop :=
  ∃ var, ∀ env d r v,
    d !! key = None → env !! var = Some v →
    resolve X env (inr (JObj d)) = inr (inr r) → field r = JStr v.

(** ** Strings and timestamps *)

Lemma JStr_inj s1 s2 : JStr s1 = JStr s2 → s1 = s2.
Proof. by intros [=]. Qed.

Lemma append_cons c s t : String c s +:+ t = String c (s +:+ t).
Proof. reflexivity. Qed.

Lemma append_length s t :
  String.length (s +:+ t) = (String.length s + String.length t)%nat.
Proof.
  induction s as [| c s IH]; [reflexivity |].
  rewrite append_cons. cbn [String.length]. by rewrite IH.
Qed.

Lemma append_assoc s t u : (s +:+ t) +:+ u = s +:+ t +:+ u.
Proof.
  induction s as [| c s IH]; [reflexivity |].
  rewrite !append_cons. by rewrite IH.
Qed.

Lemma get_append_skip s t n :
  String.get (String.length s + n) (s +:+ t) = String.get n t.
Proof.
  rewrite (String.append_correct2 s t n). f_equal. lia.
Qed.

(** A common suffix can be cancelled. *)
Lemma append_cancel_r s1 s2 t : s1 +:+ t = s2 +:+ t → s1 = s2.
Proof.
  revert s2. induction s1 as [| c1 s1 IH]; intros [| c2 s2] H.
  - reflexivity.
  - apply (f_equal String.length) in H. rewrite append_cons in H.
    cbn [String.length] in H. rewrite !append_length in H. cbn in H. lia.
  - apply (f_equal String.length) in H. rewrite append_cons in H.
    cbn [String.length] in H. rewrite !append_length in H. cbn in H. lia.
  - rewrite !append_cons in H. injection H as -> H. f_equal. by apply IH.
Qed.

(** Derived keys with the same timestamp differ exactly when their
    identifiers do. *)
Lemma derived_key_inj timestamp id1 id2 :
  derived_key timestamp id1 = derived_key timestamp id2 → id1 = id2.
Proof.
  unfold derived_key. intros H.
  apply (inj (String.app "generated_images/")) in H.
  apply (inj (String.app timestamp)) in H.
  apply (inj (String.app "_")) in H.
  by apply append_cancel_r in H.
Qed.

Lemma zeros_length k : String.length (zeros k) = k.
Proof.
  induction k as [| k IH]; [reflexivity |].
  cbn [zeros]. rewrite append_length, IH. reflexivity.
Qed.

Lemma zero_pad_length width n :
  (String.length (pretty n) ≤ width)%nat →
  String.length (zero_pad width n) = width.
Proof.
  intros H. unfold zero_pad. rewrite append_length, zeros_length. lia.
Qed.

Lemma digits_at_most_spec k bound n :
  digits_at_most k bound = true → (n < bound)%nat →
  (String.length (pretty n) ≤ k)%nat.
Proof.
  unfold digits_at_most. rewrite forallb_forall. intros H Hn.
  apply Nat.leb_le. apply H. apply in_seq. lia.
Qed.

Lemma pads_to_decimal_from_spec k count x i :
  pads_to_decimal_from k count x = true → (i < count)%nat →
  pads_to_decimal k (x + N.of_nat i) = true.
Proof.
  revert x i. induction count as [| count IH]; intros x i H Hi; [lia |].
  cbn [pads_to_decimal_from] in H. apply andb_prop in H as [Hx H].
  destruct i as [| i].
  - by rewrite N.add_0_r.
  - replace (x + N.of_nat (S i))%N with (N.succ x + N.of_nat i)%N by lia.
    apply IH; [done | lia].
Qed.

Lemma pads_to_decimal_spec k count n :
  pads_to_decimal_from k count 0%N = true → (n < count)%nat →
  decimal k n (zero_pad k n).
Proof.
  intros H Hn. apply (pads_to_decimal_from_spec k count 0%N n) in H; [| done].
  rewrite N.add_0_l in H. unfold pads_to_decimal in H.
  apply andb_prop in H as [H Hv]. apply andb_prop in H as [Hl Hd].
  split; [by apply Nat.eqb_eq |]. split; [exact Hd |]. by apply N.eqb_eq.
Qed.

Lemma year_decimal n : (Z.of_nat n < 10000)%Z → decimal 4 n (zero_pad 4 n).
Proof.
  intros H. apply (pads_to_decimal_spec 4 (Z.to_nat 10000)); [| lia].
  vm_compute. reflexivity.
Qed.

Lemma field_decimal n : (n < 100)%nat → decimal 2 n (zero_pad 2 n).
Proof. apply pads_to_decimal_spec. vm_compute. reflexivity. Qed.

Lemma four_digits n : (Z.of_nat n < 10000)%Z → (String.length (pretty n) ≤ 4)%nat.
Proof.
  intros H. destruct (year_decimal n H) as [Hl _].
  unfold zero_pad in Hl. rewrite append_length, zeros_length in Hl. lia.
Qed.

Lemma two_digits n : (n < 100)%nat → (String.length (pretty n) ≤ 2)%nat.
Proof. apply digits_at_most_spec. vm_compute. reflexivity. Qed.

(** [YYYYMMDD_HHMMSS]: fifteen characters, the ninth an underscore. *)
Lemma strftime_shape t :
  valid_datetime t →
  String.length (strftime t) = 15%nat ∧
  String.get 8 (strftime t) = String.get 0 "_".
Proof.
  intros (Hy & Hmo & Hd & Hh & Hmi & Hs).
  assert (String.length (zero_pad 4 (dt_year t)) = 4%nat) as Ly
    by (apply zero_pad_length, four_digits; lia).
  assert (String.length (zero_pad 2 (dt_month t)) = 2%nat) as Lmo
    by (apply zero_pad_length, two_digits; lia).
  assert (String.length (zero_pad 2 (dt_day t)) = 2%nat) as Ld
    by (apply zero_pad_length, two_digits; lia).
  assert (String.length (zero_pad 2 (dt_hour t)) = 2%nat) as Lh
    by (apply zero_pad_length, two_digits; lia).
  assert (String.length (zero_pad 2 (dt_minute t)) = 2%nat) as Lmi
    by (apply zero_pad_length, two_digits; lia).
  assert (String.length (zero_pad 2 (dt_second t)) = 2%nat) as Ls
    by (apply zero_pad_length, two_digits; lia).
  unfold strftime. split.
  - rewrite !append_length, Ly, Lmo, Ld, Lh, Lmi, Ls. reflexivity.
  - replace 8%nat
      with (String.length (zero_pad 4 (dt_year t))
            + (String.length (zero_pad 2 (dt_month t))
               + (String.length (zero_pad 2 (dt_day t)) + 0)))%nat
      by (rewrite Ly, Lmo, Ld; reflexivity).
    rewrite !get_append_skip. reflexivity.
Qed.

(** [YYYYMMDD_HHMMSS], field by field: year, month, day, an underscore,
    hour, minute and second of the clock, each in decimal digits at its
    full width. *)
Lemma strftime_fields t :
  valid_datetime t →
  ∃ yyyy mm dd hh mi ss,
    strftime t = yyyy +:+ mm +:+ dd +:+ "_" +:+ hh +:+ mi +:+ ss ∧
    decimal 4 (dt_year t) yyyy ∧ decimal 2 (dt_month t) mm ∧
    decimal 2 (dt_day t) dd ∧ decimal 2 (dt_hour t) hh ∧
    decimal 2 (dt_minute t) mi ∧ decimal 2 (dt_second t) ss.
Proof.
  intros (Hy & Hmo & Hd & Hh & Hmi & Hs).
  exists (zero_pad 4 (dt_year t)), (zero_pad 2 (dt_month t)), (zero_pad 2 (dt_day t)),
         (zero_pad 2 (dt_hour t)), (zero_pad 2 (dt_minute t)),
         (zero_pad 2 (dt_second t)).
  split; [reflexivity |].
  split; [apply year_decimal; lia |].
  split; [apply field_decimal; lia |].
  split; [apply field_decimal; lia |].
  split; [apply field_decimal; lia |].
  split; apply field_decimal; lia.
Qed.

(** ** Early returns and exceptions of the resolver reach the client
    without touching the world *)

Lemma generate_image_early env req w resp :
  resolve X env req = inr (inl resp) →
  generate_image X env req w = (resp, w).
Proof.
  intros H. unfold generate_image, generate_image_try, bind, lift.
  rewrite H. reflexivity.
Qed.

Lemma generate_image_resolve_raises env req w e :
  resolve X env req = inl e →
  generate_image X env req w = (error_response 500 (exc_msg e), w).
Proof.
  intros H. unfold generate_image, generate_image_try, bind, lift.
  rewrite H. reflexivity.
Qed.

Lemma resolve_falsy_prompt env d :
  truthy (dict_get d "prompt" JNull) = false →
  resolve X env (inr (JObj d)) = inr (inl (error_response 400 msg_missing_prompt)).
Proof.
  intros H. unfold resolve. cbn [as_dict]. rewrite H. reflexivity.
Qed.

Lemma resolve_unresolved_storage env d :
  truthy (dict_get d "prompt" JNull) = true →
  all_truthy (storage_fields env d) = false →
  resolve X env (inr (JObj d)) = inr (inl (error_response 400 msg_missing_storage)).
Proof.
  intros Hp Hs. unfold resolve. cbn [as_dict]. rewrite Hp. cbn [negb].
  unfold storage_fields in Hs. rewrite Hs. reflexivity.
Qed.

(** What the resolver does once the prompt and the storage triple are
    accepted: the three environment conversions, then the table. *)
Lemma resolve_past_storage env d :
  truthy (dict_get d "prompt" JNull) = true →
  all_truthy (storage_fields env d) = true →
  resolve X env (inr (JObj d)) =
    match int_env X env "NUM_INFERENCE_STEPS" default_steps with
    | inl e => inl e
    | inr env_steps =>
      match float_env X env "TRUE_CFG_SCALE" default_cfg_scale with
      | inl e => inl e
      | inr env_cfg =>
        match int_env X env "DEFAULT_SEED" default_seed with
        | inl e => inl e
        | inr env_seed =>
          match aspect_lookup (dict_get d "aspect_ratio" (JStr default_aspect_ratio)) with
          | inl e => inl e
          | inr None => inr (inl (error_response 400 msg_invalid_aspect))
          | inr (Some (width, height)) =>
            inr (inr (mkResolved
              (dict_get d "prompt" JNull)
              (dict_get d "s3_bucket" (getenv env "S3_BUCKET"))
              (dict_get d "aws_access_key_id" (getenv env "AWS_ACCESS_KEY_ID"))
              (dict_get d "aws_secret_access_key" (getenv env "AWS_SECRET_ACCESS_KEY"))
              (dict_get d "aws_region" (getenv_or env "AWS_REGION" default_region))
              (dict_get d "negative_prompt" (JStr default_negative_prompt))
              (dict_get d "positive_magic" (JStr default_positive_magic))
              (dict_get d "aspect_ratio" (JStr default_aspect_ratio))
              (dict_get d "num_inference_steps" (JInt env_steps))
              (dict_get d "true_cfg_scale" (JFloat env_cfg))
              (dict_get d "seed" (JInt env_seed))
              width height))
          end
        end
      end
    end.
Proof.
  intros Hp Hs. unfold resolve. cbn [as_dict]. rewrite Hp. cbn [negb].
  unfold storage_fields in Hs. rewrite Hs. cbn [negb]. reflexivity.
Qed.

(** ** One request, path by path *)

(** The [try] block follows exactly one of these paths. *)
Lemma generate_image_try_run env req w :
  Run env req w (fst (generate_image_try X env req w))
    (snd (generate_image_try X env req w)).
Proof.
  unfold generate_image_try, bind, lift.
  destruct (resolve X env req) as [e | [resp | r]] eqn:Hres; cbn.
  - by apply RunResolveRaises.
  - by apply RunEarly.
  - unfold invoke, bind, lift.
    destruct (log_slice (r_prompt r)) as [e | []] eqn:Hlog; cbn.
    { by eapply RunLogRaises. }
    destruct (gateway_args X r) as [e | a] eqn:Hargs; cbn.
    { by eapply RunArgsRaise. }
    unfold call_pipe.
    destruct (pipe X) as [model |] eqn:Hpipe; cbn.
    2: { by eapply RunNoModel. }
    unfold bind, emit, lift. cbn.
    destruct (model a) as [e | [| image rest]] eqn:Hmodel; cbn.
    { by eapply RunModelRaises. }
    { by eapply RunNoImage. }
    unfold persist_and_respond, bind, uuid4, now, upload_to_s3, bind, emit. cbn.
    fold (chosen_key req w). fold (upload_args req r image w).
    destruct (s3_upload X (upload_args req r image w)) as [e |] eqn:Hup; cbn.
    { by eapply RunUploadRaises. }
    by eapply RunSuccess.
Qed.

(** The route answers with the outcome of its [try] block. *)
Lemma generate_image_answer env req w :
  generate_image X env req w
  = (answer (fst (generate_image_try X env req w)),
     snd (generate_image_try X env req w)).
Proof.
  unfold generate_image.
  by destruct (generate_image_try X env req w) as [[e | resp] w'].
Qed.

Lemma generate_image_run env req w :
  ∃ o, Run env req w o (snd (generate_image X env req w))
       ∧ fst (generate_image X env req w) = answer o
       ∧ fst (generate_image_try X env req w) = o.
Proof.
  exists (fst (generate_image_try X env req w)).
  rewrite generate_image_answer. cbn. split; [| done].
  apply generate_image_try_run.
Qed.

(** ** Inverting the resolver *)

(** A request is resolved only after every earlier line went through. *)
Lemma resolve_inr_inv env d r :
  resolve X env (inr (JObj d)) = inr (inr r) →
  truthy (dict_get d "prompt" JNull) = true ∧
  all_truthy (storage_fields env d) = true ∧
  ∃ env_steps env_cfg env_seed,
    int_env X env "NUM_INFERENCE_STEPS" default_steps = inr env_steps ∧
    float_env X env "TRUE_CFG_SCALE" default_cfg_scale = inr env_cfg ∧
    int_env X env "DEFAULT_SEED" default_seed = inr env_seed ∧
    aspect_lookup (dict_get d "aspect_ratio" (JStr default_aspect_ratio))
      = inr (Some (r_width r, r_height r)) ∧
    r = mkResolved
          (dict_get d "prompt" JNull)
          (dict_get d "s3_bucket" (getenv env "S3_BUCKET"))
          (dict_get d "aws_access_key_id" (getenv env "AWS_ACCESS_KEY_ID"))
          (dict_get d "aws_secret_access_key" (getenv env "AWS_SECRET_ACCESS_KEY"))
          (dict_get d "aws_region" (getenv_or env "AWS_REGION" default_region))
          (dict_get d "negative_prompt" (JStr default_negative_prompt))
          (dict_get d "positive_magic" (JStr default_positive_magic))
          (dict_get d "aspect_ratio" (JStr default_aspect_ratio))
          (dict_get d "num_inference_steps" (JInt env_steps))
          (dict_get d "true_cfg_scale" (JFloat env_cfg))
          (dict_get d "seed" (JInt env_seed))
          (r_width r) (r_height r).
Proof.
  intros H.
  destruct (truthy (dict_get d "prompt" JNull)) eqn:Hp.
  2: { rewrite resolve_falsy_prompt in H by done. discriminate. }
  destruct (all_truthy (storage_fields env d)) eqn:Hs.
  2: { rewrite resolve_unresolved_storage in H by done. discriminate. }
  rewrite resolve_past_storage in H by done.
  destruct (int_env X env "NUM_INFERENCE_STEPS" default_steps) as [? | n1]; [discriminate |].
  destruct (float_env X env "TRUE_CFG_SCALE" default_cfg_scale) as [? | f]; [discriminate |].
  destruct (int_env X env "DEFAULT_SEED" default_seed) as [? | n2]; [discriminate |].
  destruct (aspect_lookup _) as [? | [[width height] |]]; try discriminate.
  injection H as <-. cbn.
  split; [done |]. split; [done |]. by exists n1, f, n2.
Qed.

(** Whatever the resolver hands back early is one of the three
    validation answers. *)
Lemma resolve_early_inv env req resp :
  resolve X env req = inr (inl resp) →
  resp = error_response 400 msg_missing_prompt ∨
  resp = error_response 400 msg_missing_storage ∨
  resp = error_response 400 msg_invalid_aspect.
Proof.
  unfold resolve. destruct req as [e | data]; [discriminate |].
  destruct (as_dict data) as [e | d]; [discriminate |].
  destruct (negb (truthy _)); [intros [= <-]; by left |].
  destruct (negb (all_truthy _)); [intros [= <-]; right; by left |].
  destruct (int_env _ _ _ _); [discriminate |].
  destruct (float_env _ _ _ _); [discriminate |].
  destruct (int_env _ _ _ _); [discriminate |].
  destruct (aspect_lookup _) as [? | [[? ?] |]]; try discriminate.
  intros [= <-]. right; by right.
Qed.

Lemma error_message_error_response code msg :
  error_message (error_response code msg) = Some (JStr msg).
Proof. unfold error_message, error_response. cbn. apply lookup_singleton_eq. Qed.

Lemma error_response_inj code1 code2 msg1 msg2 :
  error_response code1 msg1 = error_response code2 msg2 → code1 = code2 ∧ msg1 = msg2.
Proof.
  intros H. split.
  - by apply (f_equal status) in H.
  - apply (f_equal error_message) in H.
    rewrite !error_message_error_response in H. by injection H.
Qed.

(** ** Calls observed during one request *)

Lemma observed_unchanged env req w resp :
  generate_image X env req w = (resp, w) → observed env req w = [].
Proof.
  intros H. unfold observed. rewrite H. cbn. apply drop_all.
Qed.

Lemma drop_calls_app w (evs : list (Event Image Generator)) :
  drop (length (calls w)) (calls w ++ evs) = evs.
Proof. by rewrite drop_app_length. Qed.

(** The resolved locals behind every observed call. *)
Lemma observed_cases env req w :
  observed env req w = [] ∨
  ∃ r a, resolve X env req = inr (inr r) ∧ log_slice (r_prompt r) = inr tt ∧
         gateway_args X r = inr a ∧
         (observed env req w = [GatewayCall a] ∨
          ∃ image, observed env req w
                   = [GatewayCall a; SinkCall (upload_args req r image w)]).
Proof.
  unfold observed.
  destruct (generate_image_run env req w) as (o & HR & _ & _).
  destruct HR;
    try (left; apply drop_all);
    right; exists r, a; (split; [done |]); (split; [done |]); (split; [done |]).
  - left. apply drop_calls_app.
  - left. apply drop_calls_app.
  - right. exists image. cbn. rewrite <- app_assoc. apply drop_calls_app.
  - right. exists image. cbn. rewrite <- app_assoc. apply drop_calls_app.
Qed.

(** ** The prompt check comes first *)

Lemma falsy_prompt_rejected env d w :
  truthy (dict_get d "prompt" JNull) = false →
  generate_image X env (inr (JObj d)) w = (error_response 400 msg_missing_prompt, w).
Proof. intros H. apply generate_image_early. by apply resolve_falsy_prompt. Qed.

(** C5.  A request whose prompt is missing or is the empty string is
    answered 400 with the message "Missing required field: prompt",
    whatever else it holds and whatever the environment; the world is
    left as it was, so neither the model nor the storage sink sees a
    call. *)
Theorem missing_prompt_fails_first env d w :
  d !! "prompt" = None ∨ d !! "prompt" = Some (JStr "") →
  generate_image X env (inr (JObj d)) w = (error_response 400 msg_missing_prompt, w)
  ∧ status (fst (generate_image X env (inr (JObj d)) w)) = 400
  ∧ observed env (inr (JObj d)) w = [].
Proof.
  intros H.
  assert (generate_image X env (inr (JObj d)) w
          = (error_response 400 msg_missing_prompt, w)) as Hrun.
  { apply falsy_prompt_rejected. unfold dict_get. by destruct H as [-> | ->]. }
  split; [exact Hrun |]. split; [by rewrite Hrun |].
  by eapply observed_unchanged.
Qed.

(** ** Storage configuration: request values shadow the environment *)

Lemma unresolved_storage_rejected env d w :
  truthy (dict_get d "prompt" JNull) = true →
  all_truthy (storage_fields env d) = false →
  generate_image X env (inr (JObj d)) w = (error_response 400 msg_missing_storage, w).
Proof.
  intros Hp Hs. apply generate_image_early. by apply resolve_unresolved_storage.
Qed.

(** C10.  When a request with a prompt carries [s3_bucket],
    [aws_access_key_id] or [aws_secret_access_key] as the empty string,
    that value is the one line 89 tests: the environment variable of the
    same field cannot repair it, and the answer is the 400 for missing
    storage configuration under every environment. *)
Theorem empty_storage_field_shadows_environment env d w :
  truthy (dict_get d "prompt" JNull) = true →
  d !! "s3_bucket" = Some (JStr "") ∨
  d !! "aws_access_key_id" = Some (JStr "") ∨
  d !! "aws_secret_access_key" = Some (JStr "") →
  generate_image X env (inr (JObj d)) w = (error_response 400 msg_missing_storage, w).
Proof.
  intros Hp H. apply unresolved_storage_rejected; [done |].
  unfold storage_fields, all_truthy, dict_get. cbn [forallb].
  destruct H as [-> | [-> | ->]]; cbn.
  - reflexivity.
  - by rewrite andb_false_r.
  - by rewrite !andb_false_r.
Qed.

(** ** Order of the validation steps *)

(** C2, as the handler has it.  The checks run in the order prompt,
    storage configuration, aspect ratio: a request with a prompt whose
    storage triple does not resolve is answered with the
    storage-configuration error whatever its aspect ratio, and the
    aspect-ratio error is only ever the answer to a request whose prompt
    and storage triple were both accepted. *)
Theorem storage_checked_before_aspect env d w :
  (truthy (dict_get d "prompt" JNull) = true →
   all_truthy (storage_fields env d) = false →
   generate_image X env (inr (JObj d)) w = (error_response 400 msg_missing_storage, w))
  ∧
  (fst (generate_image X env (inr (JObj d)) w) = error_response 400 msg_invalid_aspect →
   truthy (dict_get d "prompt" JNull) = true ∧
   all_truthy (storage_fields env d) = true ∧
   aspect_lookup (dict_get d "aspect_ratio" (JStr default_aspect_ratio)) = inr None).
Proof.
  split; [apply unresolved_storage_rejected |].
  intros Hresp.
  destruct (truthy (dict_get d "prompt" JNull)) eqn:Hp.
  2: { rewrite falsy_prompt_rejected in Hresp by done.
       apply error_response_inj in Hresp as [_ Hmsg]. discriminate Hmsg. }
  destruct (all_truthy (storage_fields env d)) eqn:Hs.
  2: { rewrite unresolved_storage_rejected in Hresp by done.
       apply error_response_inj in Hresp as [_ Hmsg]. discriminate Hmsg. }
  split; [done |]. split; [done |].
  destruct (generate_image_run env (inr (JObj d)) w) as (o & HR & Ho & _).
  rewrite Ho in Hresp.
  destruct HR as [resp Hres | | | | | | | |]; cbn [answer] in Hresp;
    try (apply error_response_inj in Hresp as [Hcode _]; discriminate Hcode);
    try (apply (f_equal status) in Hresp; discriminate Hresp).
  rewrite resolve_past_storage in Hres by done.
  destruct (int_env _ _ _ _); [discriminate |].
  destruct (float_env _ _ _ _); [discriminate |].
  destruct (int_env _ _ _ _); [discriminate |].
  destruct (aspect_lookup _) as [? | [[? ?] |]]; try discriminate.
  reflexivity.
Qed.

(** ** The aspect-ratio table *)

Lemma table_lookup_Some tbl label wh :
  table_lookup tbl label = Some wh → (label, wh) ∈ tbl.
Proof.
  induction tbl as [| [k v] rest IH]; cbn; [discriminate |].
  destruct (String.eqb k label) eqn:Hk.
  - intros [= <-]. apply String.eqb_eq in Hk as ->. apply list_elem_of_here.
  - intros H. apply list_elem_of_further. by apply IH.
Qed.

Lemma aspect_ratios_lookup label wh :
  (label, wh) ∈ aspect_ratios → table_lookup aspect_ratios label = Some wh.
Proof.
  unfold aspect_ratios. rewrite !elem_of_cons, elem_of_nil.
  intros [H | [H | [H | [H | [H | [H | [H | []]]]]]]]; by injection H as -> ->.
Qed.

Lemma aspect_lookup_key v wh :
  aspect_lookup v = inr (Some wh) ↔ ∃ label, v = JStr label ∧ (label, wh) ∈ aspect_ratios.
Proof.
  split.
  - destruct v; cbn [aspect_lookup]; try discriminate. intros [= H].
    eexists. split; [done |]. by apply table_lookup_Some.
  - intros (label & -> & H). cbn [aspect_lookup].
    by rewrite (aspect_ratios_lookup _ _ H).
Qed.

Lemma aspect_lookup_no_key v :
  aspect_lookup v = inr None ↔ ¬ aspect_key v ∧ hashable v.
Proof.
  split.
  - intros H. split.
    + intros (label & wh & -> & Hin). cbn [aspect_lookup] in H.
      rewrite (aspect_ratios_lookup _ _ Hin) in H. discriminate.
    + destruct v; cbn [aspect_lookup hashable] in *; try done; discriminate.
  - intros [Hk Hh]. destruct v; cbn [aspect_lookup hashable] in *; try done.
    destruct (table_lookup aspect_ratios s) as [wh |] eqn:Hl; [| done].
    exfalso. apply Hk. exists s, wh. split; [done |]. by apply table_lookup_Some.
Qed.

Lemma resolve_at_aspect_check env d :
  reaches_aspect_check env d →
  ∃ env_steps env_cfg env_seed,
    resolve X env (inr (JObj d)) =
      match aspect_lookup (dict_get d "aspect_ratio" (JStr default_aspect_ratio)) with
      | inl e => inl e
      | inr None => inr (inl (error_response 400 msg_invalid_aspect))
      | inr (Some (width, height)) =>
        inr (inr (mkResolved
          (dict_get d "prompt" JNull)
          (dict_get d "s3_bucket" (getenv env "S3_BUCKET"))
          (dict_get d "aws_access_key_id" (getenv env "AWS_ACCESS_KEY_ID"))
          (dict_get d "aws_secret_access_key" (getenv env "AWS_SECRET_ACCESS_KEY"))
          (dict_get d "aws_region" (getenv_or env "AWS_REGION" default_region))
          (dict_get d "negative_prompt" (JStr default_negative_prompt))
          (dict_get d "positive_magic" (JStr default_positive_magic))
          (dict_get d "aspect_ratio" (JStr default_aspect_ratio))
          (dict_get d "num_inference_steps" (JInt env_steps))
          (dict_get d "true_cfg_scale" (JFloat env_cfg))
          (dict_get d "seed" (JInt env_seed))
          width height))
      end
    ∧ int_env X env "NUM_INFERENCE_STEPS" default_steps = inr env_steps
    ∧ float_env X env "TRUE_CFG_SCALE" default_cfg_scale = inr env_cfg
    ∧ int_env X env "DEFAULT_SEED" default_seed = inr env_seed.
Proof.
  intros (Hp & Hs & [n1 H1] & [f H2] & [n2 H3]).
  exists n1, f, n2. rewrite resolve_past_storage by done.
  by rewrite H1, H2, H3.
Qed.

(** No call is observed unless the aspect ratio is a key of the table. *)
Lemma observed_needs_aspect_key env d w :
  ¬ aspect_key (dict_get d "aspect_ratio" (JStr default_aspect_ratio)) →
  observed env (inr (JObj d)) w = [].
Proof.
  intros Hk.
  destruct (observed_cases env (inr (JObj d)) w) as [H | (r & a & Hres & _)]; [done |].
  apply resolve_inr_inv in Hres as (_ & _ & ? & ? & ? & _ & _ & _ & Hasp & _).
  exfalso. apply Hk. apply aspect_lookup_key in Hasp as (label & Hv & Hin).
  by exists label, (r_width r, r_height r).
Qed.

(** C1, as the handler has it.  For a request that gets as far as the
    aspect-ratio check (prompt accepted, storage triple resolved, numeric
    environment defaults converted): a label of the table resolves to
    exactly its (width, height) pair; a hashable value that is no key of
    the table is answered 400 with the message listing the seven labels.
    For every request at all whose aspect ratio is no key of the table,
    the model is never called. *)
Theorem aspect_ratio_resolution env d w :
  (∀ label width height,
     reaches_aspect_check env d →
     dict_get d "aspect_ratio" (JStr default_aspect_ratio) = JStr label →
     (label, (width, height)) ∈ aspect_ratios →
     ∃ r, resolve X env (inr (JObj d)) = inr (inr r)
          ∧ r_width r = width ∧ r_height r = height)
  ∧ (reaches_aspect_check env d →
     ¬ aspect_key (dict_get d "aspect_ratio" (JStr default_aspect_ratio)) →
     hashable (dict_get d "aspect_ratio" (JStr default_aspect_ratio)) →
     generate_image X env (inr (JObj d)) w = (error_response 400 msg_invalid_aspect, w))
  ∧ (¬ aspect_key (dict_get d "aspect_ratio" (JStr default_aspect_ratio)) →
     observed env (inr (JObj d)) w = [])
  ∧ aspect_ratios =
      [ ("1:1", (1328, 1328)); ("16:9", (1024, 768)); ("9:16", (928, 1664));
        ("4:3", (1472, 1140)); ("3:4", (1140, 1472)); ("3:2", (1584, 1056));
        ("2:3", (1056, 1584)) ]
  ∧ msg_invalid_aspect =
      "Invalid aspect ratio. Choose from: ['1:1', '16:9', '9:16', '4:3', '3:4', '3:2', '2:3']".
Proof.
  split; [| split; [| split; [| split]]].
  - intros label width height Hreach Hlabel Hin.
    destruct (resolve_at_aspect_check _ _ Hreach) as (n1 & f & n2 & Hres & _).
    rewrite Hlabel in Hres. cbn [aspect_lookup] in Hres.
    rewrite (aspect_ratios_lookup _ _ Hin) in Hres.
    eexists. split; [exact Hres |]. by cbn.
  - intros Hreach Hk Hh. apply generate_image_early.
    destruct (resolve_at_aspect_check _ _ Hreach) as (n1 & f & n2 & Hres & _).
    rewrite Hres.
    by rewrite (proj2 (aspect_lookup_no_key _) (conj Hk Hh)).
  - apply observed_needs_aspect_key.
  - reflexivity.
  - reflexivity.
Qed.

(** ** What the model is called with *)

Lemma compose_prompt_inv prompt magic text :
  compose_prompt prompt magic = inr text →
  ∃ p m, prompt = JStr p ∧ magic = JStr m ∧ text = p +:+ " " +:+ m.
Proof.
  destruct prompt; try discriminate. destruct magic; try discriminate.
  intros [= <-]. by eexists _, _.
Qed.

Lemma gateway_args_inv r a :
  gateway_args X r = inr a →
  ∃ p m g,
    r_prompt r = JStr p ∧ r_positive_magic r = JStr m ∧
    manual_seed X (device X) (r_seed r) = inr g ∧
    a = mkPipeArgs (p +:+ " " +:+ m) (r_negative_prompt r) (r_width r) (r_height r)
          (r_num_inference_steps r) (r_true_cfg_scale r) g.
Proof.
  unfold gateway_args.
  destruct (compose_prompt _ _) as [? | text] eqn:Hc; [discriminate |].
  destruct (manual_seed _ _ _) as [? | g] eqn:Hg; [discriminate |].
  intros [= <-]. apply compose_prompt_inv in Hc as (p & m & Hp & Hm & ->).
  by exists p, m, g.
Qed.

Lemma observed_gateway env req w a :
  GatewayCall a ∈ observed env req w →
  ∃ r, resolve X env req = inr (inr r) ∧ log_slice (r_prompt r) = inr tt ∧
       gateway_args X r = inr a.
Proof.
  destruct (observed_cases env req w)
    as [-> | (r & a' & Hres & Hlog & Hargs & [-> | [image ->]])].
  - by intros ?%elem_of_nil.
  - rewrite list_elem_of_singleton. intros [= ->]. by exists r.
  - rewrite !elem_of_cons, elem_of_nil. intros [[= ->] | [[=] | []]]. by exists r.
Qed.

Lemma observed_sink env req w u :
  SinkCall u ∈ observed env req w →
  ∃ r image, resolve X env req = inr (inr r) ∧ u = upload_args req r image w.
Proof.
  destruct (observed_cases env req w)
    as [-> | (r & a' & Hres & Hlog & Hargs & [-> | [image ->]])].
  - by intros ?%elem_of_nil.
  - rewrite list_elem_of_singleton. intros [=].
  - rewrite !elem_of_cons, elem_of_nil. intros [[=] | [[= ->] | []]]. by exists r, image.
Qed.

(** Two facts about the same step of one run name the same values. *)
Ltac same_path :=
  repeat match goal with
         | H1 : ?t = _, H2 : ?t = _ |- _ => rewrite H1 in H2; simplify_eq
         end.

(** When everything up to the model call goes through, the call is the
    first thing observed. *)
Lemma observed_starts_with_gateway env req w r a model :
  resolve X env req = inr (inr r) →
  log_slice (r_prompt r) = inr tt →
  gateway_args X r = inr a →
  pipe X = Some model →
  ∃ rest, observed env req w = GatewayCall a :: rest.
Proof.
  intros Hres Hlog Hargs Hpipe. unfold observed.
  destruct (generate_image_run env req w) as (o & HR & _ & _).
  destruct HR; same_path; cbn;
    rewrite <- ?app_assoc, drop_calls_app; by eexists.
Qed.

(** The prompt text of an observed model call, read off the request. *)
Lemma gateway_call_prompt env d w a :
  GatewayCall a ∈ observed env (inr (JObj d)) w →
  ∃ p m, d !! "prompt" = Some (JStr p) ∧
         dict_get d "positive_magic" (JStr default_positive_magic) = JStr m ∧
         pa_prompt a = p +:+ " " +:+ m.
Proof.
  intros (r & Hres & _ & Hargs)%observed_gateway.
  apply gateway_args_inv in Hargs as (p & m & g & Hp & Hm & _ & ->).
  apply resolve_inr_inv in Hres as (_ & _ & ? & ? & ? & _ & _ & _ & _ & Hr).
  rewrite Hr in Hp, Hm. cbn in Hp, Hm. exists p, m. split; [| done].
  unfold dict_get in Hp. by destruct (d !! "prompt") as [v |]; simplify_eq/=.
Qed.

(** C4.  Whenever the model is called for a request, the prompt text it
    receives is the request's prompt, one space, and the positive magic
    in force: the default "Ultra HD, 4K, cinematic composition." when
    the request has no [positive_magic], the caller's string when it has
    one.  And for a validated request whose prompt and magic are strings,
    once the generator is seeded and the model is loaded, the model is
    called, with that text. *)
Theorem composed_prompt_reaches_model env d w :
  (∀ a, GatewayCall a ∈ observed env (inr (JObj d)) w →
     ∃ p m, d !! "prompt" = Some (JStr p) ∧
            dict_get d "positive_magic" (JStr default_positive_magic) = JStr m ∧
            pa_prompt a = p +:+ " " +:+ m)
  ∧ (∀ r p m g model,
       resolve X env (inr (JObj d)) = inr (inr r) →
       r_prompt r = JStr p → r_positive_magic r = JStr m →
       manual_seed X (device X) (r_seed r) = inr g →
       pipe X = Some model →
       ∃ a rest, observed env (inr (JObj d)) w = GatewayCall a :: rest
                 ∧ pa_prompt a = p +:+ " " +:+ m)
  ∧ (d !! "positive_magic" = None →
     dict_get d "positive_magic" (JStr default_positive_magic)
     = JStr "Ultra HD, 4K, cinematic composition.")
  ∧ (∀ v, d !! "positive_magic" = Some v →
     dict_get d "positive_magic" (JStr default_positive_magic) = v).
Proof.
  split; [apply gateway_call_prompt |]. split; [| split].
  - intros r p m g model Hres Hp Hm Hg Hpipe.
    assert (gateway_args X r
            = inr (mkPipeArgs (p +:+ " " +:+ m) (r_negative_prompt r) (r_width r)
                     (r_height r) (r_num_inference_steps r) (r_true_cfg_scale r) g))
      as Hargs.
    { unfold gateway_args. rewrite Hp, Hm. cbn. by rewrite Hg. }
    assert (log_slice (r_prompt r) = inr tt) as Hlog by (by rewrite Hp).
    destruct (observed_starts_with_gateway env _ w _ _ _ Hres Hlog Hargs Hpipe)
      as [rest Hobs].
    by eexists _, _.
  - unfold dict_get. by intros ->.
  - unfold dict_get. by intros v ->.
Qed.

(** C9.  A request that carries [positive_magic] as the empty string
    keeps it: the resolved magic is the empty string, not the default,
    and the text the model receives is the prompt followed by one
    space. *)
Theorem empty_positive_magic_kept env d w p :
  d !! "positive_magic" = Some (JStr "") →
  d !! "prompt" = Some (JStr p) →
  (∀ r, resolve X env (inr (JObj d)) = inr (inr r) → r_positive_magic r = JStr "")
  ∧ (∀ a, GatewayCall a ∈ observed env (inr (JObj d)) w → pa_prompt a = p +:+ " ")
  ∧ (∀ r g model,
       resolve X env (inr (JObj d)) = inr (inr r) →
       manual_seed X (device X) (r_seed r) = inr g →
       pipe X = Some model →
       ∃ a rest, observed env (inr (JObj d)) w = GatewayCall a :: rest
                 ∧ pa_prompt a = p +:+ " ").
Proof.
  intros Hmagic Hprompt.
  assert (∀ r, resolve X env (inr (JObj d)) = inr (inr r) →
               r_prompt r = JStr p ∧ r_positive_magic r = JStr "") as Hr.
  { intros r (_ & _ & ? & ? & ? & _ & _ & _ & _ & ->)%resolve_inr_inv. cbn.
    unfold dict_get. by rewrite Hmagic, Hprompt. }
  split; [| split].
  - intros r Hres. by apply Hr.
  - intros a (p' & m & Hp' & Hm & ->)%gateway_call_prompt.
    unfold dict_get in Hm. rewrite Hmagic in Hm. by simplify_eq/=.
  - intros r g model Hres Hg Hpipe. destruct (Hr r Hres) as [Hp Hm].
    assert (gateway_args X r
            = inr (mkPipeArgs (p +:+ " ") (r_negative_prompt r) (r_width r)
                     (r_height r) (r_num_inference_steps r) (r_true_cfg_scale r) g))
      as Hargs.
    { unfold gateway_args. rewrite Hp, Hm. cbn. by rewrite Hg. }
    assert (log_slice (r_prompt r) = inr tt) as Hlog by (by rewrite Hp).
    destruct (observed_starts_with_gateway env _ w _ _ _ Hres Hlog Hargs Hpipe)
      as [rest Hobs].
    by eexists _, _.
Qed.

(** C8.  Two requests (under any environments, in any worlds) that
    resolve to the same job hand the model identical arguments, and the
    generator among them is the one [manual_seed] builds from the job's
    seed on the process's device: nothing else of the request, the
    environment or the world enters the call. *)
Theorem gateway_deterministic_in_job env1 req1 w1 env2 req2 w2 r1 r2 job a1 a2 :
  resolve X env1 req1 = inr (inr r1) →
  resolve X env2 req2 = inr (inr r2) →
  resolved_job r1 = inr job →
  resolved_job r2 = inr job →
  GatewayCall a1 ∈ observed env1 req1 w1 →
  GatewayCall a2 ∈ observed env2 req2 w2 →
  a1 = a2
  ∧ manual_seed X (device X) (job_seed job) = inr (pa_generator a1)
  ∧ pa_prompt a1 = job_prompt job
  ∧ pa_negative_prompt a1 = job_negative_prompt job
  ∧ pa_width a1 = job_width job
  ∧ pa_height a1 = job_height job
  ∧ pa_num_inference_steps a1 = job_steps job
  ∧ pa_true_cfg_scale a1 = job_guidance_scale job.
Proof.
  intros Hres1 Hres2 Hjob1 Hjob2
    (r1' & Hres1' & _ & Hargs1)%observed_gateway
    (r2' & Hres2' & _ & Hargs2)%observed_gateway.
  rewrite Hres1 in Hres1'. injection Hres1' as <-.
  rewrite Hres2 in Hres2'. injection Hres2' as <-.
  unfold resolved_job in Hjob1, Hjob2. unfold gateway_args in Hargs1, Hargs2.
  destruct (compose_prompt (r_prompt r1) _) as [? | text1]; [discriminate |].
  destruct (compose_prompt (r_prompt r2) _) as [? | text2]; [discriminate |].
  injection Hjob1 as <-. injection Hjob2 as -> Hn Hw Hh Hs Hc Hseed.
  cbn in *. rewrite Hseed in Hargs2.
  destruct (manual_seed X (device X) (r_seed r1)) as [? | g] eqn:Hg; [discriminate |].
  injection Hargs1 as <-. injection Hargs2 as <-.
  rewrite Hn, Hw, Hh, Hs, Hc. done.
Qed.

(** ** Defaults, layer by layer *)

(** C3, as the handler has it.  Of a resolved request: inference steps,
    guidance scale, seed and region are each the request's value when it
    has one, else the environment's ([NUM_INFERENCE_STEPS],
    [TRUE_CFG_SCALE], [DEFAULT_SEED], [AWS_REGION]; the first three
    converted to a number), else the literal 50, 4.0, 42, "us-east-1";
    negative prompt and positive magic are the request's value when it
    has one, else their literal, under every environment. *)
Theorem defaults_by_layer env d r :
  resolve X env (inr (JObj d)) = inr (inr r) →
  request_or_literal d "negative_prompt"
    (JStr "ugly, deformed, disfigured, poor details, bad anatomy") (r_negative_prompt r)
  ∧ request_or_literal d "positive_magic"
      (JStr "Ultra HD, 4K, cinematic composition.") (r_positive_magic r)
  ∧ request_env_literal d env "num_inference_steps" "NUM_INFERENCE_STEPS"
      (int_of_str X) JInt 50 (r_num_inference_steps r)
  ∧ request_env_literal d env "true_cfg_scale" "TRUE_CFG_SCALE"
      (float_of_str X) JFloat 4%float (r_true_cfg_scale r)
  ∧ request_env_literal d env "seed" "DEFAULT_SEED"
      (int_of_str X) JInt 42 (r_seed r)
  ∧ request_env_literal d env "aws_region" "AWS_REGION"
      (λ s, inr s) JStr "us-east-1" (r_aws_region r).
Proof.
  intros (_ & _ & n1 & f & n2 & H1 & H2 & H3 & _ & ->)%resolve_inr_inv. cbn.
  unfold int_env in H1, H3. unfold float_env in H2.
  unfold request_or_literal, request_env_literal, dict_get, getenv_or.
  repeat split.
  all: try (intros v ->; reflexivity).
  all: try (intros ->; reflexivity).
  - intros -> s Hs. rewrite Hs in H1. by exists n1.
  - intros -> Hs. rewrite Hs in H1. by injection H1 as <-.
  - intros -> s Hs. rewrite Hs in H2. by exists f.
  - intros -> Hs. rewrite Hs in H2. by injection H2 as <-.
  - intros -> s Hs. rewrite Hs in H3. by exists n2.
  - intros -> Hs. rewrite Hs in H3. by injection H3 as <-.
  - intros -> s Hs. rewrite Hs. by exists s.
  - intros -> Hs. by rewrite Hs.
Qed.

(** The region does have such a variable. *)
Lemma region_environment_supplies : environment_supplies r_aws_region "aws_region".
Proof.
  exists "AWS_REGION". intros env d r v Hd Hv
    (_ & _ & ? & ? & ? & _ & _ & _ & _ & ->)%resolve_inr_inv.
  cbn. unfold dict_get, getenv_or. by rewrite Hd, Hv.
Qed.

(** The numeric defaults are converted before the request is consulted
    (they are arguments of [data.get]): a value that does not convert
    fails the request even when the request sets the field. *)
Lemma unconvertible_environment_default env d w e :
  truthy (dict_get d "prompt" JNull) = true →
  all_truthy (storage_fields env d) = true →
  int_env X env "NUM_INFERENCE_STEPS" default_steps = inl e →
  generate_image X env (inr (JObj d)) w = (error_response 500 (exc_msg e), w).
Proof.
  intros Hp Hs He. apply generate_image_resolve_raises.
  rewrite resolve_past_storage by done. by rewrite He.
Qed.

(** ** Outcomes *)

(** The five top-level fields of the success payload. *)
Lemma success_body_fields r url key ts :
  ∃ m meta,
    success_body r url key ts = JObj m ∧
    m !! "success" = Some (JBool true) ∧
    m !! "image_url" = Some (JStr url) ∧
    m !! "s3_bucket" = Some (r_s3_bucket r) ∧
    m !! "s3_key" = Some key ∧
    m !! "metadata" = Some (JObj meta) ∧
    dom m = {[ "success"; "image_url"; "s3_bucket"; "s3_key"; "metadata" ]} ∧
    meta !! "prompt" = Some (r_prompt r) ∧
    meta !! "negative_prompt" = Some (r_negative_prompt r) ∧
    meta !! "aspect_ratio" = Some (r_aspect_ratio r) ∧
    meta !! "width" = Some (JInt (r_width r)) ∧
    meta !! "height" = Some (JInt (r_height r)) ∧
    meta !! "seed" = Some (r_seed r) ∧
    meta !! "timestamp" = Some (JStr ts).
Proof.
  unfold success_body. eexists _, _. split; [reflexivity |].
  cbn [list_to_map foldr uncurry fst snd].
  repeat split; by simplify_map_eq.
Qed.


(** ** The derived storage key *)

(** A request that reached the sink has drawn exactly one identifier and
    left the clock alone. *)
Lemma observed_sink_world env req w u :
  SinkCall u ∈ observed env req w →
  clock (snd (generate_image X env req w)) = clock w ∧
  ∀ n, uuid_pool (snd (generate_image X env req w)) n = uuid_pool w (S n).
Proof.
  unfold observed.
  destruct (generate_image_run env req w) as (o & HR & _ & _).
  destruct HR; cbn; rewrite <- ?app_assoc, ?drop_calls_app, ?drop_all;
    try (by intros ?%elem_of_nil);
    try (rewrite list_elem_of_singleton; by intros [=]);
    done.
Qed.

Lemma observed_sink_key env d w u :
  d !! "s3_key" = None →
  SinkCall u ∈ observed env (inr (JObj d)) w →
  up_key u = JStr (derived_key (strftime (clock w)) (uuid_pool w 0%nat)).
Proof.
  intros Hd (r & image & _ & ->)%observed_sink. cbn.
  unfold chosen_key, dict_get. cbn. by rewrite Hd.
Qed.

(** C7.  For a request without [s3_key] that reaches the sink, the key
    handed to the upload is
    [generated_images/<timestamp>_<uuid>.png], the timestamp being the
    clock printed as [YYYYMMDD_HHMMSS] (year, month, day, an underscore,
    hour, minute, second, each in decimal digits at its full width of
    four or two places) and the identifier the next one [uuid4] hands
    out.  The identifier does not come from the job: in
    the same world every job gets the same key.  So two such requests
    stamped in the same second get distinct keys as soon as their
    identifiers differ, which they do for a request served after this
    one when [uuid4] never repeats itself. *)
Theorem derived_key_fresh env d w u :
  d !! "s3_key" = None →
  SinkCall u ∈ observed env (inr (JObj d)) w →
  up_key u
  = JStr ("generated_images/" +:+ strftime (clock w) +:+ "_" +:+ uuid_pool w 0%nat
          +:+ ".png")
  ∧ (valid_datetime (clock w) →
     String.length (strftime (clock w)) = 15%nat ∧
     String.get 8 (strftime (clock w)) = String.get 0 "_" ∧
     ∃ yyyy mm dd hh mi ss,
       up_key u
       = JStr ("generated_images/" +:+ yyyy +:+ mm +:+ dd +:+ "_" +:+ hh +:+ mi
               +:+ ss +:+ "_" +:+ uuid_pool w 0%nat +:+ ".png") ∧
       decimal 4 (dt_year (clock w)) yyyy ∧ decimal 2 (dt_month (clock w)) mm ∧
       decimal 2 (dt_day (clock w)) dd ∧ decimal 2 (dt_hour (clock w)) hh ∧
       decimal 2 (dt_minute (clock w)) mi ∧ decimal 2 (dt_second (clock w)) ss)
  ∧ (∀ env' d' u',
       d' !! "s3_key" = None →
       SinkCall u' ∈ observed env' (inr (JObj d')) w →
       up_key u' = up_key u)
  ∧ (∀ env' d' w' u',
       d' !! "s3_key" = None →
       SinkCall u' ∈ observed env' (inr (JObj d')) w' →
       strftime (clock w') = strftime (clock w) →
       uuid_pool w' 0%nat ≠ uuid_pool w 0%nat →
       up_key u' ≠ up_key u)
  ∧ ((∀ i j, uuid_pool w i = uuid_pool w j → i = j) →
     ∀ env' d' t u',
       d' !! "s3_key" = None →
       strftime t = strftime (clock w) →
       SinkCall u' ∈ observed env' (inr (JObj d'))
         (mkWorld (calls (snd (generate_image X env (inr (JObj d)) w))) t
            (uuid_pool (snd (generate_image X env (inr (JObj d)) w)))) →
       up_key u' ≠ up_key u).
Proof.
  intros Hd Hu. pose proof (observed_sink_key _ _ _ _ Hd Hu) as Hkey.
  split; [exact Hkey |]. split; [| split; [| split]].
  - intros V. destruct (strftime_shape _ V) as [Hlen Hsep].
    split; [exact Hlen |]. split; [exact Hsep |].
    destruct (strftime_fields _ V)
      as (yyyy & mm & dd & hh & mi & ss & Hts & Hfields).
    exists yyyy, mm, dd, hh, mi, ss. split; [| exact Hfields].
    rewrite Hkey. unfold derived_key. by rewrite Hts, !append_assoc.
  - intros env' d' u' Hd' Hu'.
    by rewrite Hkey, (observed_sink_key _ _ _ _ Hd' Hu').
  - intros env' d' w' u' Hd' Hu' Hts Hid.
    rewrite Hkey, (observed_sink_key _ _ _ _ Hd' Hu'), Hts.
    intros H%JStr_inj. by apply derived_key_inj in H.
  - intros Hinj env' d' t u' Hd' Hts Hu'.
    rewrite Hkey, (observed_sink_key _ _ _ _ Hd' Hu'). cbn [clock uuid_pool].
    rewrite Hts. destruct (observed_sink_world _ _ _ _ Hu) as [_ Hpool].
    rewrite Hpool. intros H%JStr_inj. apply derived_key_inj in H.
    by apply Hinj in H.
Qed.

End Properties.

(** * Further behaviour of the handler *)

Section Behaviour.

Context {Image Generator : Type}.
Variable X : Collaborators Image Generator.

Implicit Types (env : gmap string string) (d : gmap string json).
Implicit Types (w : World Image Generator) (r : Resolved).

(** Facts about the same step of one run name the same values. *)
Ltac one_path :=
  repeat match goal with
         | H1 : ?t = _, H2 : ?t = _ |- _ => rewrite H1 in H2; simplify_eq
         end.

(** ** Values the prompt check treats as no prompt *)

(** X1.  Line 79 tests the prompt for truth, not for presence: a request
    whose prompt is null, false, the integer 0, the float 0.0 or -0.0, an
    empty list or an empty object is answered exactly like one without a
    prompt, and the world is left as it was. *)
Theorem falsy_prompt_counts_as_missing env d w v :
  d !! "prompt" = Some v →
  v ∈ [ JNull; JBool false; JInt 0; JFloat 0%float; JFloat (-0)%float;
        JArr []; JObj ∅ ] →
  generate_image X env (inr (JObj d)) w = (error_response 400 msg_missing_prompt, w).
Proof.
  intros Hd Hv. apply falsy_prompt_rejected. unfold dict_get. rewrite Hd. cbn.
  rewrite !elem_of_cons, elem_of_nil in Hv.
  destruct Hv as [-> | [-> | [-> | [-> | [-> | [-> | [-> | []]]]]]]]; reflexivity.
Qed.

(** ** Bodies that are no object *)

(** X2.  The handler calls [data.get] on whatever [request.json] yields:
    a body that parses to anything but an object is answered 500 with the
    [AttributeError] naming its type, and an exception raised by
    [request.json] itself is answered 500 with its message; in both cases
    the world is left as it was. *)
Theorem non_object_body_is_server_error env w :
  (∀ data, (∀ d, data ≠ JObj d) →
     generate_image X env (inr data) w
     = (error_response 500
          ("'" +:+ type_name data +:+ "' object has no attribute 'get'"), w))
  ∧ (∀ e, generate_image X env (inl e) w = (error_response 500 (exc_msg e), w)).
Proof.
  split.
  - intros data Hdata.
    apply (generate_image_resolve_raises X env _ w
             (mkExc "AttributeError"
                ("'" +:+ type_name data +:+ "' object has no attribute 'get'"))).
    unfold resolve. destruct data; try reflexivity. by destruct (Hdata m).
  - intros e. by apply generate_image_resolve_raises.
Qed.

(** ** Environment defaults are converted before the request is read *)

(** X3.  [int(os.getenv(...))] and [float(os.getenv(...))] are arguments
    of [data.get], so they are evaluated for every request that passes
    the prompt and storage checks: when [NUM_INFERENCE_STEPS],
    [TRUE_CFG_SCALE] or [DEFAULT_SEED] holds a value that does not
    convert, the request is answered 500 with the conversion error of the
    first such variable, whether or not it sets the field itself, and
    nothing is called. *)
Theorem environment_defaults_converted_eagerly env d w e :
  truthy (dict_get d "prompt" JNull) = true →
  all_truthy (storage_fields env d) = true →
  int_env X env "NUM_INFERENCE_STEPS" default_steps = inl e
  ∨ (∃ n, int_env X env "NUM_INFERENCE_STEPS" default_steps = inr n ∧
          float_env X env "TRUE_CFG_SCALE" default_cfg_scale = inl e)
  ∨ (∃ n f, int_env X env "NUM_INFERENCE_STEPS" default_steps = inr n ∧
            float_env X env "TRUE_CFG_SCALE" default_cfg_scale = inr f ∧
            int_env X env "DEFAULT_SEED" default_seed = inl e) →
  generate_image X env (inr (JObj d)) w = (error_response 500 (exc_msg e), w)
  ∧ observed X env (inr (JObj d)) w = [].
Proof.
  intros Hp Hs He.
  assert (generate_image X env (inr (JObj d)) w = (error_response 500 (exc_msg e), w))
    as Hrun.
  { apply generate_image_resolve_raises. rewrite resolve_past_storage by done.
    destruct He as [-> | [(n & -> & ->) | (n & f & -> & -> & ->)]]; reflexivity. }
  split; [exact Hrun |]. by eapply observed_unchanged.
Qed.

(** ** Aspect ratios that are no string *)

(** X4.  The membership test of line 111 hashes its operand: an
    [aspect_ratio] that is a list or an object raises [TypeError], so the
    request is answered 500 with "unhashable type", not with the 400 that
    lists the labels; nothing is called. *)
Theorem unhashable_aspect_ratio_is_server_error env d w v :
  reaches_aspect_check X env d →
  d !! "aspect_ratio" = Some v →
  (∃ l, v = JArr l) ∨ (∃ m, v = JObj m) →
  generate_image X env (inr (JObj d)) w
  = (error_response 500 ("unhashable type: '" +:+ type_name v +:+ "'"), w)
  ∧ observed X env (inr (JObj d)) w = [].
Proof.
  intros Hreach Hd Hv.
  assert (generate_image X env (inr (JObj d)) w
          = (error_response 500 ("unhashable type: '" +:+ type_name v +:+ "'"), w))
    as Hrun.
  { apply (generate_image_resolve_raises X env _ w
             (mkExc "TypeError" ("unhashable type: '" +:+ type_name v +:+ "'"))).
    destruct (resolve_at_aspect_check _ _ _ Hreach) as (n1 & f & n2 & -> & _).
    unfold dict_get. rewrite Hd. cbn [default].
    by destruct Hv as [[l ->] | [m ->]]. }
  split; [exact Hrun |]. by eapply observed_unchanged.
Qed.

(** X5.  [aspect_ratio] is defaulted only when the key is absent: a
    request without it resolves to "16:9", 1024 by 768, while a request
    that carries it as null, a number or a boolean is not defaulted and
    is answered with the 400 that lists the labels. *)
Theorem aspect_ratio_default_needs_absence env d w :
  reaches_aspect_check X env d →
  (d !! "aspect_ratio" = None →
   ∃ r, resolve X env (inr (JObj d)) = inr (inr r) ∧
        r_aspect_ratio r = JStr "16:9" ∧ r_width r = 1024 ∧ r_height r = 768)
  ∧ (∀ v, d !! "aspect_ratio" = Some v →
       v = JNull ∨ (∃ b, v = JBool b) ∨ (∃ z, v = JInt z) ∨ (∃ f, v = JFloat f) →
       generate_image X env (inr (JObj d)) w
       = (error_response 400 msg_invalid_aspect, w)).
Proof.
  intros Hreach.
  destruct (resolve_at_aspect_check _ _ _ Hreach) as (n1 & f & n2 & Hres & _).
  split.
  - intros Hd. unfold dict_get in Hres. rewrite Hd in Hres. cbn in Hres.
    eexists. split; [exact Hres |]. by cbn.
  - intros v Hd Hv. apply generate_image_early. rewrite Hres.
    unfold dict_get. rewrite Hd. cbn [default].
    by destruct Hv as [-> | [[b ->] | [[z ->] | [f' ->]]]].
Qed.

(** ** Prompts and magic that are no strings *)

(** X6.  A validated request whose prompt is not a string (a number,
    [true], a list, an object), or whose positive magic is not a string,
    raises at the slice of the log line 116 or at the concatenation of
    line 120: it is answered 500 with the message of that exception, the
    model is never called and the world is left as it was. *)
Theorem non_string_prompt_never_reaches_model env req w r :
  resolve X env req = inr (inr r) →
  (∀ p, r_prompt r ≠ JStr p) ∨ (∀ m, r_positive_magic r ≠ JStr m) →
  observed X env req w = []
  ∧ ∃ e, (log_slice (r_prompt r) = inl e
          ∨ compose_prompt (r_prompt r) (r_positive_magic r) = inl e)
         ∧ generate_image X env req w = (error_response 500 (exc_msg e), w).
Proof.
  intros Hres Hbad.
  assert (∃ e, (log_slice (r_prompt r) = inl e ∨
                (log_slice (r_prompt r) = inr tt ∧ gateway_args X r = inl e))
               ∧ (log_slice (r_prompt r) = inl e
                  ∨ compose_prompt (r_prompt r) (r_positive_magic r) = inl e))
    as (e & Hwhere & Hsite).
  { unfold gateway_args.
    destruct (r_prompt r) as [| | | | p | |] eqn:Hp;
      try (eexists; split; left; reflexivity).
    - destruct Hbad as [Hbad | Hbad]; [by destruct (Hbad p) |].
      destruct (r_positive_magic r) as [| | | | m | |] eqn:Hm;
        try (eexists; split; [right; split; reflexivity | right; reflexivity]).
      by destruct (Hbad m).
    - eexists; split; [right; split; reflexivity | right; reflexivity]. }
  assert (generate_image X env req w = (error_response 500 (exc_msg e), w)) as Hrun.
  { rewrite generate_image_answer.
    pose proof (generate_image_try_run X env req w) as HR.
    destruct (generate_image_try X env req w) as [o w']. cbn in *.
    destruct Hwhere as [Hlog | [Hlog Hargs]]; destruct HR; one_path; done. }
  split; [by eapply observed_unchanged |]. by exists e.
Qed.

(** ** Calls made for one request *)

(** X7.  One request calls the model at most once and the sink at most
    once, the sink only after the model: what is observed is nothing, one
    model call, or one model call followed by one upload.  The answer is
    200 exactly when both were called and the upload went through; a 400
    leaves the world as it was. *)
Theorem calls_of_one_request env req w :
  (observed X env req w = []
   ∨ (∃ a, observed X env req w = [GatewayCall a])
   ∨ (∃ a u, observed X env req w = [GatewayCall a; SinkCall u]))
  ∧ (status (fst (generate_image X env req w)) = 200 ↔
     ∃ a u, observed X env req w = [GatewayCall a; SinkCall u] ∧ s3_upload X u = None)
  ∧ (status (fst (generate_image X env req w)) = 400 →
     snd (generate_image X env req w) = w).
Proof.
  unfold observed.
  destruct (generate_image_run X env req w) as (o & HR & -> & _).
  destruct HR as [resp Hearly | | | | | | | |]; cbn [answer status error_response];
    rewrite <- ?app_assoc; cbn [with_call after_uuid calls];
    rewrite <- ?app_assoc, ?drop_calls_app, ?drop_all.
  - split; [by left |]. split; [| done].
    destruct (resolve_early_inv _ _ _ _ Hearly) as [-> | [-> | ->]];
      (split; [done | by intros (? & ? & [=] & _)]).
  - split; [by left |]. split; [| done]. split; [done | by intros (? & ? & [=] & _)].
  - split; [by left |]. split; [| done]. split; [done | by intros (? & ? & [=] & _)].
  - split; [by left |]. split; [| done]. split; [done | by intros (? & ? & [=] & _)].
  - split; [by left |]. split; [| done]. split; [done | by intros (? & ? & [=] & _)].
  - split; [right; left; by eexists |]. split; [| done].
    split; [done | by intros (? & ? & [=] & _)].
  - split; [right; left; by eexists |]. split; [| done].
    split; [done | by intros (? & ? & [=] & _)].
  - split; [right; right; by eexists _, _ |]. split; [| done].
    split; [done |]. intros (a' & u' & [= <- <-] & Hnone). congruence.
  - split; [right; right; by eexists _, _ |]. split; [| done].
    split; [| done]. intros _. by eexists _, _.
Qed.

(** X8.  Of the images the model returns only the first is stored: with
    several images the upload carries the first one, and with none the
    subscript of line 127 raises, the request is answered 500 with "list
    index out of range" after the model was called, and nothing is
    uploaded. *)
Theorem first_image_only env req w r a model :
  resolve X env req = inr (inr r) →
  log_slice (r_prompt r) = inr tt →
  gateway_args X r = inr a →
  pipe X = Some model →
  (model a = inr [] →
   generate_image X env req w
   = (error_response 500 "list index out of range", with_call w (GatewayCall a))
   ∧ observed X env req w = [GatewayCall a])
  ∧ (∀ image rest, model a = inr (image :: rest) →
       ∃ u, observed X env req w = [GatewayCall a; SinkCall u] ∧ up_image u = image).
Proof.
  intros Hres Hlog Hargs Hpipe. unfold observed.
  rewrite generate_image_answer.
  pose proof (generate_image_try_run X env req w) as HR.
  destruct (generate_image_try X env req w) as [o w']. cbn [fst snd] in *.
  split.
  - intros Hmodel. destruct HR; one_path. split; [done |].
    cbn. apply drop_calls_app.
  - intros image rest Hmodel. destruct HR; one_path;
      (eexists; split; [cbn; rewrite <- app_assoc; apply drop_calls_app | done]).
Qed.

(** ** What a successful answer says *)

(** A 200 is the last path of the handler. *)
Lemma success_inv env req w :
  status (fst (generate_image X env req w)) = 200 →
  ∃ r a image,
    resolve X env req = inr (inr r) ∧
    gateway_args X r = inr a ∧
    s3_upload X (upload_args req r image w) = None ∧
    generate_image X env req w
    = (mkResponse 200
         (success_body r (s3_url_of X (upload_args req r image w))
            (chosen_key req w) (strftime (clock w))),
       with_call (after_uuid (with_call w (GatewayCall a)))
         (SinkCall (upload_args req r image w))).
Proof.
  rewrite generate_image_answer.
  pose proof (generate_image_try_run X env req w) as HR.
  destruct (generate_image_try X env req w) as [o w']. cbn [fst snd] in *.
  destruct HR as [resp Hearly | | | | | | | |]; cbn [answer]; try discriminate.
  - destruct (resolve_early_inv _ _ _ _ Hearly) as [-> | [-> | ->]]; discriminate.
  - intros _. by exists r, a, image.
Qed.

(** X9.  A request that names its own [s3_key] has that value, whatever
    it is, passed to the upload and echoed in the 200; the key derived
    from clock and identifier is then not used, though an identifier is
    drawn all the same. *)
Theorem caller_key_used_verbatim env d w k :
  d !! "s3_key" = Some k →
  (∀ u, SinkCall u ∈ observed X env (inr (JObj d)) w →
     up_key u = k ∧
     ∀ n, uuid_pool (snd (generate_image X env (inr (JObj d)) w)) n
          = uuid_pool w (S n))
  ∧ (status (fst (generate_image X env (inr (JObj d)) w)) = 200 →
     ∃ m, body (fst (generate_image X env (inr (JObj d)) w)) = JObj m ∧
          m !! "s3_key" = Some k).
Proof.
  intros Hd.
  assert (chosen_key (inr (JObj d)) w = k) as Hkey.
  { unfold chosen_key, dict_get. cbn. by rewrite Hd. }
  split.
  - intros u Hu. split.
    + apply observed_sink in Hu as (r & image & _ & ->). exact Hkey.
    + by destruct (observed_sink_world _ _ _ _ _ Hu).
  - intros (r & a & image & _ & _ & _ & ->)%success_inv. cbn [fst body].
    destruct (success_body_fields r (s3_url_of X (upload_args (inr (JObj d)) r image w))
                (chosen_key (inr (JObj d)) w) (strftime (clock w)))
      as (m & meta & -> & _ & _ & _ & Hk & _).
    exists m. by rewrite <- Hkey.
Qed.

(** X10.  A 200 reports what was uploaded: its [s3_bucket] and [s3_key]
    are the bucket and key the sink was called with, and its [image_url]
    is the URL [upload_to_s3] builds from them, which for a string
    bucket, region and key reads
    [https://<bucket>.s3.<region>.amazonaws.com/<key>]. *)
Theorem response_matches_upload env req w :
  status (fst (generate_image X env req w)) = 200 →
  ∃ a u m,
    observed X env req w = [GatewayCall a; SinkCall u] ∧
    body (fst (generate_image X env req w)) = JObj m ∧
    m !! "s3_bucket" = Some (up_bucket u) ∧
    m !! "s3_key" = Some (up_key u) ∧
    m !! "image_url" = Some (JStr (s3_url_of X u)) ∧
    (∀ bucket region key,
       up_bucket u = JStr bucket → up_region u = JStr region → up_key u = JStr key →
       s3_url_of X u
       = "https://" +:+ bucket +:+ ".s3." +:+ region +:+ ".amazonaws.com/" +:+ key).
Proof.
  intros (r & a & image & _ & _ & _ & Hrun)%success_inv.
  unfold observed. rewrite Hrun. cbn [fst snd body].
  destruct (success_body_fields r (s3_url_of X (upload_args req r image w))
              (chosen_key req w) (strftime (clock w)))
    as (m & meta & -> & _ & Hurl & Hb & Hk & _).
  exists a, (upload_args req r image w), m.
  split; [cbn; rewrite <- app_assoc; apply drop_calls_app |].
  split; [done |]. split; [done |]. split; [done |]. split; [done |].
  intros bucket region key Hbucket Hregion Hkey. unfold s3_url_of.
  by rewrite Hbucket, Hregion, Hkey.
Qed.

(** X11.  The metadata of a 200 has exactly the seven fields prompt,
    negative_prompt, aspect_ratio, width, height, seed and timestamp.
    The prompt echoed is the request's own, without the positive magic;
    width and height are the table's pair for the echoed aspect ratio;
    the timestamp is the clock as it is printed into derived keys. *)
Theorem metadata_echoes_resolution env d w :
  status (fst (generate_image X env (inr (JObj d)) w)) = 200 →
  ∃ m meta label width height,
    body (fst (generate_image X env (inr (JObj d)) w)) = JObj m ∧
    m !! "metadata" = Some (JObj meta) ∧
    dom meta = {[ "prompt"; "negative_prompt"; "aspect_ratio"; "width"; "height";
                  "seed"; "timestamp" ]} ∧
    meta !! "prompt" = d !! "prompt" ∧
    meta !! "negative_prompt"
    = Some (dict_get d "negative_prompt" (JStr default_negative_prompt)) ∧
    meta !! "aspect_ratio" = Some (JStr label) ∧
    (label, (width, height)) ∈ aspect_ratios ∧
    meta !! "width" = Some (JInt width) ∧
    meta !! "height" = Some (JInt height) ∧
    meta !! "timestamp" = Some (JStr (strftime (clock w))).
Proof.
  intros (r & a & image & Hres & Hargs & _ & ->)%success_inv. cbn [fst body].
  apply gateway_args_inv in Hargs as (p & _ & _ & Hp & _).
  apply resolve_inr_inv in Hres as (_ & _ & n1 & f & n2 & _ & _ & _ & Hasp & Hr).
  apply aspect_lookup_key in Hasp as (label & Hlabel & Hin).
  unfold success_body. eexists _, _, label, (r_width r), (r_height r).
  split; [reflexivity |].
  assert (r_prompt r = dict_get d "prompt" JNull) as Hrp by (by rewrite Hr).
  assert (r_negative_prompt r
          = dict_get d "negative_prompt" (JStr default_negative_prompt)) as Hrn
    by (by rewrite Hr).
  assert (r_aspect_ratio r = dict_get d "aspect_ratio" (JStr default_aspect_ratio))
    as Hra by (by rewrite Hr).
  cbn [list_to_map foldr uncurry fst snd].
  split; [by simplify_map_eq |].
  split; [rewrite !dom_insert_L, dom_empty_L; set_solver |].
  split.
  { rewrite lookup_insert_eq. rewrite Hrp in Hp |- *. unfold dict_get in *.
    by destruct (d !! "prompt") as [v |]. }
  split; [rewrite <- Hrn; by simplify_map_eq |].
  split; [rewrite <- Hlabel, <- Hra; by simplify_map_eq |].
  split; [done |].
  repeat split; by simplify_map_eq.
Qed.

(** ** What one request does to the world *)

(** X12.  A request only appends to the calls made so far and never
    touches the clock.  An identifier is drawn from [uuid4] exactly when
    the upload is attempted: one for a request that reached the sink,
    none for a request that did not, so a request rejected or failed
    before line 129 leaves the identifiers for the next one. *)
Theorem identifier_drawn_only_for_upload env req w :
  calls (snd (generate_image X env req w)) = (calls w ++ observed X env req w)%list
  ∧ clock (snd (generate_image X env req w)) = clock w
  ∧ ((∃ u, SinkCall u ∈ observed X env req w) →
     ∀ n, uuid_pool (snd (generate_image X env req w)) n = uuid_pool w (S n))
  ∧ ((∀ u, SinkCall u ∉ observed X env req w) →
     uuid_pool (snd (generate_image X env req w)) = uuid_pool w).
Proof.
  unfold observed.
  destruct (generate_image_run X env req w) as (o & HR & _ & _).
  destruct HR; cbn [with_call after_uuid calls clock uuid_pool];
    rewrite <- ?app_assoc, ?drop_calls_app, ?drop_all, ?app_nil_r;
    (split; [done |]); (split; [done |]); split; try done;
    try (by intros [u Hu%elem_of_nil]);
    try (intros [u Hu%list_elem_of_singleton]; discriminate);
    intros Hno; exfalso; eapply Hno; apply list_elem_of_further, list_elem_of_here.
Qed.

(** ** Derived keys can be read back *)

Lemma append_inj_length s1 s2 t1 t2 :
  String.length s1 = String.length s2 →
  s1 +:+ t1 = s2 +:+ t2 → s1 = s2 ∧ t1 = t2.
Proof.
  revert s2. induction s1 as [| c1 s1 IH]; intros [| c2 s2] Hl H; try discriminate.
  - done.
  - rewrite !append_cons in H. injection H as -> H. injection Hl as Hl.
    by destruct (IH _ Hl H) as [-> ->].
Qed.

Lemma zero_pad_inj k bound n m :
  reads_back k bound = true → (n < bound)%nat → (m < bound)%nat →
  zero_pad k n = zero_pad k m → n = m.
Proof.
  unfold reads_back. rewrite forallb_forall. intros H Hn Hm Heq.
  assert (digits_to_N 0%N (zero_pad k n) = N.of_nat n) as Rn
    by (apply N.eqb_eq, H, in_seq; lia).
  assert (digits_to_N 0%N (zero_pad k m) = N.of_nat m) as Rm
    by (apply N.eqb_eq, H, in_seq; lia).
  rewrite Heq, Rm in Rn. by apply Nat2N.inj.
Qed.

Lemma zero_pad4_inj n m :
  (Z.of_nat n < 10000)%Z → (Z.of_nat m < 10000)%Z →
  zero_pad 4 n = zero_pad 4 m → n = m.
Proof.
  intros Hn Hm Heq.
  destruct (year_decimal n Hn) as (_ & _ & Rn), (year_decimal m Hm) as (_ & _ & Rm).
  rewrite Heq, Rm in Rn. by apply Nat2N.inj.
Qed.

Lemma zero_pad2_inj n m :
  (n < 100)%nat → (m < 100)%nat → zero_pad 2 n = zero_pad 2 m → n = m.
Proof. apply zero_pad_inj. vm_compute. reflexivity. Qed.

Lemma zero_pad2_length n : (n < 100)%nat → String.length (zero_pad 2 n) = 2%nat.
Proof. intros H. by apply zero_pad_length, two_digits. Qed.

Lemma zero_pad4_length n :
  (Z.of_nat n < 10000)%Z → String.length (zero_pad 4 n) = 4%nat.
Proof. intros H. by apply zero_pad_length, four_digits. Qed.

(** Two seconds that print alike are the same second. *)
Lemma strftime_inj t1 t2 :
  valid_datetime t1 → valid_datetime t2 → strftime t1 = strftime t2 → t1 = t2.
Proof.
  intros (Hy1 & Hmo1 & Hd1 & Hh1 & Hmi1 & Hs1) (Hy2 & Hmo2 & Hd2 & Hh2 & Hmi2 & Hs2).
  unfold strftime. intros H.
  apply append_inj_length in H as [Hy H];
    [| rewrite !zero_pad4_length by lia; reflexivity].
  apply append_inj_length in H as [Hmo H];
    [| rewrite !zero_pad2_length by lia; reflexivity].
  apply append_inj_length in H as [Hd H];
    [| rewrite !zero_pad2_length by lia; reflexivity].
  apply (inj (String.app "_")) in H.
  apply append_inj_length in H as [Hh H];
    [| rewrite !zero_pad2_length by lia; reflexivity].
  apply append_inj_length in H as [Hmi Hs];
    [| rewrite !zero_pad2_length by lia; reflexivity].
  apply zero_pad4_inj in Hy; [| lia | lia].
  apply zero_pad2_inj in Hmo; [| lia | lia].
  apply zero_pad2_inj in Hd; [| lia | lia].
  apply zero_pad2_inj in Hh; [| lia | lia].
  apply zero_pad2_inj in Hmi; [| lia | lia].
  apply zero_pad2_inj in Hs; [| lia | lia].
  destruct t1, t2. cbn in *. by subst.
Qed.

(** X13.  The key of line 131 loses nothing: from
    [generated_images/<timestamp>_<uuid>.png] both the second it was
    stamped in and the identifier can be read back, whatever characters
    the identifier is made of.  Two derived keys are therefore equal only
    for the same second and the same identifier. *)
Theorem derived_key_unambiguous t1 t2 id1 id2 :
  valid_datetime t1 → valid_datetime t2 →
  derived_key (strftime t1) id1 = derived_key (strftime t2) id2
  ↔ t1 = t2 ∧ id1 = id2.
Proof.
  intros V1 V2. split; [| by intros [-> ->]].
  intros H. unfold derived_key in H.
  apply (inj (String.app "generated_images/")) in H.
  destruct (strftime_shape _ V1) as [L1 _], (strftime_shape _ V2) as [L2 _].
  apply append_inj_length in H as [Hts H]; [| congruence].
  apply (inj (String.app "_")) in H. apply append_cancel_r in H.
  split; [by apply strftime_inj | done].
Qed.

(** ** Start-up *)

(** X14.  When the [__main__] block gets as far as [app.run], the global
    [pipe] is the pipeline [from_pretrained] loaded under the name the
    health check reports, in bfloat16 on a CUDA machine and float32
    otherwise, after it was moved to that device; the port is 8080 unless
    [PORT] is set; and nothing else of the process has changed: requests
    resolve as before, and every request that gets as far as the model
    call calls that pipeline. *)
Theorem startup_binds_moved_pipeline (L : Loader Image Generator) env X' port :
  main L X env = inr (X', port) →
  ∃ loaded moved,
    from_pretrained L (model_name env)
      (if cuda_is_available X then BFloat16 else Float32) = inr loaded ∧
    to_device L loaded (device X) = inr moved ∧
    pipe X' = Some moved ∧
    (∃ m, body (health_check env) = JObj m ∧
          m !! "model" = Some (JStr (model_name env))) ∧
    (env !! "PORT" = None → port = 8080) ∧
    (∀ s, env !! "PORT" = Some s → int_of_str X s = inr port) ∧
    (∀ req, resolve X' env req = resolve X env req) ∧
    (∀ req w r a,
       resolve X' env req = inr (inr r) →
       log_slice (r_prompt r) = inr tt →
       gateway_args X' r = inr a →
       gateway_args X r = inr a ∧
       ∃ rest, observed X' env req w = GatewayCall a :: rest).
Proof.
  unfold main, initialize_model, device.
  destruct (cuda_is_available X) eqn:Hcuda;
    (destruct (from_pretrained L _ _) as [e | loaded] eqn:Hload; [discriminate |]);
    (destruct (to_device L loaded _) as [e | moved] eqn:Hmove; [discriminate |]);
    (destruct (int_env _ env "PORT" 8080) as [e | port'] eqn:Hport; [discriminate |]);
    intros [= <- <-]; exists loaded, moved;
    (split; [done |]); (split; [done |]); (split; [done |]);
    (split; [eexists; split; [reflexivity | by simplify_map_eq] |]);
    unfold int_env in Hport; cbn in Hport;
    (split; [intros Hnone; rewrite Hnone in Hport; congruence |]);
    (split; [intros s Hs; rewrite Hs in Hport; congruence |]);
    (split; [done |]);
    intros req w r a Hres Hlog Hargs;
    (split; [exact Hargs |]);
    by eapply observed_starts_with_gateway.
Qed.

(** X15.  The [__main__] block fails, and the server never listens, in
    exactly three ways, tried in this order: the pipeline does not load,
    it does not move to the device, or [PORT] is set to something [int]
    rejects.  A bad [PORT] is found only after the model was loaded. *)
Theorem startup_failure_causes (L : Loader Image Generator) env e :
  main L X env = inl e ↔
  from_pretrained L (model_name env)
    (if cuda_is_available X then BFloat16 else Float32) = inl e
  ∨ (∃ loaded,
       from_pretrained L (model_name env)
         (if cuda_is_available X then BFloat16 else Float32) = inr loaded ∧
       to_device L loaded (device X) = inl e)
  ∨ (∃ loaded moved s,
       from_pretrained L (model_name env)
         (if cuda_is_available X then BFloat16 else Float32) = inr loaded ∧
       to_device L loaded (device X) = inr moved ∧
       env !! "PORT" = Some s ∧ int_of_str X s = inl e).
Proof.
  unfold main, initialize_model, device, int_env.
  destruct (cuda_is_available X);
    (destruct (from_pretrained L _ _) as [e1 | loaded] eqn:Hload; cbn;
     [split; [intros [= ->]; by left | intros [[= ->] | [(? & [=] & _) | (? & ? & ? & [=] & _)]]; done] |]);
    (destruct (to_device L loaded _) as [e2 | moved] eqn:Hto; cbn;
     [split; [intros [= ->]; right; left; by exists loaded
             | intros [[=] | [(? & [= <-] & H) | (? & ? & ? & [= <-] & H & _)]]; congruence] |]);
    (destruct (env !! "PORT") as [s |] eqn:Hport; cbn;
     [destruct (int_of_str X s) as [e3 | port] eqn:Hint |]);
    split; try discriminate;
    try (intros [= ->]; right; right; by exists loaded, moved, s);
    intros [[=] | [(? & [= <-] & H) | (? & ? & ? & [= <-] & H & Hs & Hi)]];
    congruence.
Qed.

(** X16.  A process in which [initialize_model] never ran (the module
    imported by a WSGI server, the [__main__] block skipped) still
    validates requests, but serves none: every request that gets as far
    as line 119 is answered 500 with "'NoneType' object is not callable",
    no request is answered 200, and the world is never touched. *)
Theorem unloaded_model_serves_nothing env req w :
  pipe X = None →
  snd (generate_image X env req w) = w
  ∧ status (fst (generate_image X env req w)) ≠ 200
  ∧ (∀ r a,
       resolve X env req = inr (inr r) →
       log_slice (r_prompt r) = inr tt →
       gateway_args X r = inr a →
       fst (generate_image X env req w)
       = error_response 500 "'NoneType' object is not callable")
  ∧ (∀ resp, resolve X env req = inr (inl resp) →
       fst (generate_image X env req w) = resp).
Proof.
  intros Hpipe. rewrite generate_image_answer.
  pose proof (generate_image_try_run X env req w) as HR.
  destruct (generate_image_try X env req w) as [o w']. cbn [fst snd] in *.
  destruct HR as [resp Hearly | | | | | | | |]; one_path; cbn [answer].
  - split; [done |]. split.
    { destruct (resolve_early_inv _ _ _ _ Hearly) as [-> | [-> | ->]]; done. }
    split; [intros; one_path | intros; by one_path].
  - split; [done |]. split; [done |]. split; intros; one_path.
  - split; [done |]. split; [done |]. split; intros; one_path.
  - split; [done |]. split; [done |]. split; intros; one_path.
  - split; [done |]. split; [done |]. split; intros; one_path; done.
Qed.

(** ** Fields that are passed on unchecked *)

(** X17.  [aws_region] is not among the fields line 89 tests: whatever a
    request sends for it, null and the empty string included, the request
    is accepted or rejected exactly as without it, resolves to the same
    locals but for the region, and the value is handed to the upload as
    it came. *)
Theorem region_is_never_validated env d v w :
  resolve X env (inr (JObj (<["aws_region" := v]> d)))
  = match resolve X env (inr (JObj d)) with
    | inr (inr r) =>
      inr (inr (mkResolved (r_prompt r) (r_s3_bucket r) (r_aws_access_key_id r)
                  (r_aws_secret_access_key r) v (r_negative_prompt r)
                  (r_positive_magic r) (r_aspect_ratio r) (r_num_inference_steps r)
                  (r_true_cfg_scale r) (r_seed r) (r_width r) (r_height r)))
    | other => other
    end
  ∧ (∀ u, SinkCall u ∈ observed X env (inr (JObj (<["aws_region" := v]> d))) w →
       up_region u = v).
Proof.
  split.
  - unfold resolve. cbn [as_dict]. unfold dict_get.
    rewrite lookup_insert_eq, !lookup_insert_ne by done. cbn [default].
    destruct (negb (truthy _)); [done |].
    destruct (negb (all_truthy _)); [done |].
    destruct (int_env _ _ _ _); [done |].
    destruct (float_env _ _ _ _); [done |].
    destruct (int_env _ _ _ _); [done |].
    by destruct (aspect_lookup _) as [? | [[? ?] |]].
  - intros u (r & image & Hres & ->)%observed_sink.
    apply resolve_inr_inv in Hres as (_ & _ & ? & ? & ? & _ & _ & _ & _ & ->).
    cbn. unfold dict_get. by rewrite lookup_insert_eq.
Qed.

(** X18.  The numbers of a request reach the model as they came: the
    handler applies no [int] or [float] to [num_inference_steps] or
    [true_cfg_scale] and does not check their type, and the seed goes
    straight to [manual_seed] on the device in use.  Width and height are
    never taken from the request: they are the table's pair for the
    aspect ratio in force. *)
Theorem request_numbers_reach_model_unconverted env d w a :
  GatewayCall a ∈ observed X env (inr (JObj d)) w →
  (∀ v, d !! "num_inference_steps" = Some v → pa_num_inference_steps a = v)
  ∧ (∀ v, d !! "true_cfg_scale" = Some v → pa_true_cfg_scale a = v)
  ∧ (∀ v, d !! "negative_prompt" = Some v → pa_negative_prompt a = v)
  ∧ (∀ v, d !! "seed" = Some v →
       manual_seed X (device X) v = inr (pa_generator a))
  ∧ (∃ label,
       dict_get d "aspect_ratio" (JStr default_aspect_ratio) = JStr label ∧
       (label, (pa_width a, pa_height a)) ∈ aspect_ratios).
Proof.
  intros (r & Hres & _ & Hargs)%observed_gateway.
  apply gateway_args_inv in Hargs as (p & m & g & _ & _ & Hseed & ->).
  apply resolve_inr_inv in Hres as (_ & _ & n1 & f & n2 & _ & _ & _ & Hasp & Hr).
  apply aspect_lookup_key in Hasp as (label & Hlabel & Hin).
  rewrite Hr in Hseed. cbn in Hseed |- *. rewrite Hr. cbn. unfold dict_get in *.
  split; [by intros v -> |]. split; [by intros v -> |]. split; [by intros v -> |].
  split; [intros v Hv; by rewrite Hv in Hseed |].
  by exists label.
Qed.

End Behaviour.

(** * The statements, run on the sample deployment *)

(** Scenario A of the specification, end to end. *)
Example scenario_A_response :
  fst (generate_image Sample.collaborators Sample.storage_env
         (inr (JObj Sample.bicycle)) Sample.world0)
  = mkResponse 200 (success_body 
      (mkResolved (JStr "a red bicycle") (JStr "bucket") (JStr "AKIA") (JStr "secret")
         (JStr "us-east-1") (JStr default_negative_prompt) (JStr default_positive_magic)
         (JStr "16:9") (JInt 50) (JFloat 4%float) (JInt 42) 1024 768)
      "https://bucket.s3.us-east-1.amazonaws.com/generated_images/20250309_120007_uuid-0.png"
      (JStr "generated_images/20250309_120007_uuid-0.png")
      "20250309_120007").
Proof. vm_compute. reflexivity. Qed.


(** C5 on a request whose prompt is the empty string. *)
Lemma missing_prompt_fails_first_witness :
  (Sample.empty_prompt !! "prompt" = None ∨
   Sample.empty_prompt !! "prompt" = Some (JStr ""))
  ∧ generate_image Sample.collaborators Sample.storage_env
      (inr (JObj Sample.empty_prompt)) Sample.world0
    = (error_response 400 msg_missing_prompt, Sample.world0)
  ∧ observed Sample.collaborators Sample.storage_env
      (inr (JObj Sample.empty_prompt)) Sample.world0 = [].
Proof.
  assert (Sample.empty_prompt !! "prompt" = Some (JStr "")) as H by reflexivity.
  split; [by right |].
  destruct (missing_prompt_fails_first Sample.collaborators Sample.storage_env
              Sample.empty_prompt Sample.world0 (or_intror H)) as (Hrun & _ & Hobs).
  by split.
Defined.

(** C10 on a request with an empty bucket, under an environment that
    sets [S3_BUCKET]. *)
Lemma empty_storage_field_shadows_environment_witness :
  truthy (dict_get Sample.empty_bucket "prompt" JNull) = true
  ∧ Sample.empty_bucket !! "s3_bucket" = Some (JStr "")
  ∧ Sample.storage_env !! "S3_BUCKET" = Some "bucket"
  ∧ generate_image Sample.collaborators Sample.storage_env
      (inr (JObj Sample.empty_bucket)) Sample.world0
    = (error_response 400 msg_missing_storage, Sample.world0).
Proof.
  assert (truthy (dict_get Sample.empty_bucket "prompt" JNull) = true) as Hp
    by reflexivity.
  assert (Sample.empty_bucket !! "s3_bucket" = Some (JStr "")) as Hb by reflexivity.
  split; [exact Hp |]. split; [exact Hb |]. split; [reflexivity |].
  apply (empty_storage_field_shadows_environment Sample.collaborators
           Sample.storage_env Sample.empty_bucket Sample.world0 Hp (or_introl Hb)).
Defined.

(** Scenario B of the specification, in a deployment with no storage
    configured: the aspect ratio "5:4" is no key of the table, and the
    answer is the storage-configuration error, not the aspect-ratio
    one. *)
Lemma invalid_aspect_with_unresolved_storage :
  ¬ invalid_aspect_always_reported Sample.collaborators ∅ Sample.scenario_B Sample.world0
  ∧ ¬ aspect_key (dict_get Sample.scenario_B "aspect_ratio" (JStr default_aspect_ratio))
  ∧ fst (generate_image Sample.collaborators ∅ (inr (JObj Sample.scenario_B))
           Sample.world0)
    = error_response 400 msg_missing_storage.
Proof.
  assert (¬ aspect_key (dict_get Sample.scenario_B "aspect_ratio"
                          (JStr default_aspect_ratio))) as Hkey.
  { apply aspect_lookup_no_key. reflexivity. }
  assert (generate_image Sample.collaborators ∅ (inr (JObj Sample.scenario_B))
            Sample.world0
          = (error_response 400 msg_missing_storage, Sample.world0)) as Hrun.
  { by apply unresolved_storage_rejected. }
  split; [| split; [exact Hkey | by rewrite Hrun]].
  intros H. specialize (H Hkey). rewrite Hrun in H.
  apply error_response_inj in H as [_ H]. discriminate H.
Qed.

(** C1 with storage configured: "9:16" resolves to 928 by 1664, "5:4" is
    answered with the aspect-ratio error and no call. *)
Lemma aspect_ratio_resolution_witness :
  (∃ r, resolve Sample.collaborators Sample.storage_env (inr (JObj Sample.portrait))
        = inr (inr r) ∧ r_width r = 928 ∧ r_height r = 1664)
  ∧ generate_image Sample.collaborators Sample.storage_env
      (inr (JObj Sample.scenario_B)) Sample.world0
    = (error_response 400 msg_invalid_aspect, Sample.world0)
  ∧ observed Sample.collaborators Sample.storage_env
      (inr (JObj Sample.scenario_B)) Sample.world0 = [].
Proof.
  assert (∀ d, truthy (dict_get d "prompt" JNull) = true →
               all_truthy (storage_fields Sample.storage_env d) = true →
               reaches_aspect_check Sample.collaborators Sample.storage_env d)
    as Hreach.
  { intros d Hp Hs. split; [done |]. split; [done |].
    split; [| split]; by eexists. }
  assert (¬ aspect_key (dict_get Sample.scenario_B "aspect_ratio"
                          (JStr default_aspect_ratio))) as Hkey.
  { apply aspect_lookup_no_key. reflexivity. }
  split; [| split].
  - apply (proj1 (aspect_ratio_resolution Sample.collaborators Sample.storage_env
                    Sample.portrait Sample.world0) "9:16").
    + by apply Hreach.
    + reflexivity.
    + unfold aspect_ratios. set_solver.
  - apply (proj1 (proj2 (aspect_ratio_resolution Sample.collaborators
                           Sample.storage_env Sample.scenario_B Sample.world0))).
    + by apply Hreach.
    + exact Hkey.
    + exact I.
  - by apply (proj1 (proj2 (proj2 (aspect_ratio_resolution Sample.collaborators
                Sample.storage_env Sample.scenario_B Sample.world0)))).
Defined.

(** A request with a prompt, credentials of its own but no bucket
    anywhere, and the aspect ratio "21:9": the specification's order
    would report the aspect ratio, the handler reports the storage
    configuration. *)
Lemma storage_reported_before_aspect :
  ¬ aspect_checked_before_storage Sample.collaborators Sample.region_env
      Sample.lighthouse Sample.world0
  ∧ truthy (dict_get Sample.lighthouse "prompt" JNull) = true
  ∧ aspect_lookup (dict_get Sample.lighthouse "aspect_ratio" (JStr default_aspect_ratio))
    = inr None
  ∧ fst (generate_image Sample.collaborators Sample.region_env
           (inr (JObj Sample.lighthouse)) Sample.world0)
    = error_response 400 msg_missing_storage.
Proof.
  assert (generate_image Sample.collaborators Sample.region_env
            (inr (JObj Sample.lighthouse)) Sample.world0
          = (error_response 400 msg_missing_storage, Sample.world0)) as Hrun.
  { by apply unresolved_storage_rejected. }
  split; [| split; [reflexivity | split; [reflexivity | by rewrite Hrun]]].
  intros H. specialize (H eq_refl eq_refl). rewrite Hrun in H.
  apply error_response_inj in H as [_ H]. discriminate H.
Qed.

(** C2 on both sides: without a bucket the storage error, with storage
    configured the aspect-ratio error. *)
Lemma storage_checked_before_aspect_witness :
  truthy (dict_get Sample.lighthouse "prompt" JNull) = true
  ∧ all_truthy (storage_fields Sample.region_env Sample.lighthouse) = false
  ∧ generate_image Sample.collaborators Sample.region_env
      (inr (JObj Sample.lighthouse)) Sample.world0
    = (error_response 400 msg_missing_storage, Sample.world0)
  ∧ (fst (generate_image Sample.collaborators Sample.storage_env
            (inr (JObj Sample.scenario_B)) Sample.world0)
     = error_response 400 msg_invalid_aspect
     ∧ all_truthy (storage_fields Sample.storage_env Sample.scenario_B) = true).
Proof.
  split; [reflexivity |]. split; [reflexivity |]. split.
  - by apply (proj1 (storage_checked_before_aspect Sample.collaborators
                       Sample.region_env Sample.lighthouse Sample.world0)).
  - assert (fst (generate_image Sample.collaborators Sample.storage_env
                   (inr (JObj Sample.scenario_B)) Sample.world0)
            = error_response 400 msg_invalid_aspect) as H by (vm_compute; reflexivity).
    split; [exact H |].
    by destruct (proj2 (storage_checked_before_aspect Sample.collaborators
                          Sample.storage_env Sample.scenario_B Sample.world0) H)
      as (_ & Hs & _).
Defined.

(** Whatever single variable the environment sets, a request without
    [negative_prompt] or [positive_magic] resolves them to the literals:
    no environment variable supplies either. *)
Lemma resolve_self_contained var :
  ∃ r, resolve Sample.collaborators {[ var := "7" ]} (inr (JObj Sample.self_contained))
       = inr (inr r)
       ∧ r_negative_prompt r = JStr default_negative_prompt
       ∧ r_positive_magic r = JStr default_positive_magic.
Proof.
  assert (reaches_aspect_check Sample.collaborators {[ var := "7" ]}
            Sample.self_contained) as Hreach.
  { split; [reflexivity |]. split; [reflexivity |].
    unfold int_env, float_env. rewrite !lookup_singleton.
    split; [| split]; case_decide; by eexists. }
  destruct (resolve_at_aspect_check _ _ _ Hreach) as (n1 & f & n2 & Hres & _).
  eexists. split; [exact Hres |]. by split.
Qed.

Lemma prompt_decorations_ignore_environment :
  ¬ environment_supplies Sample.collaborators r_negative_prompt "negative_prompt"
  ∧ ¬ environment_supplies Sample.collaborators r_positive_magic "positive_magic".
Proof.
  split; intros [var H]; destruct (resolve_self_contained var) as (r & Hres & Hn & Hm);
    specialize (H {[ var := "7" ]} Sample.self_contained r "7" eq_refl
                  (lookup_singleton_eq _ _) Hres).
  - rewrite Hn in H. discriminate H.
  - rewrite Hm in H. discriminate H.
Qed.

(** C3 on a request that sets the seed, under an environment that sets
    the step count, the guidance scale and the region. *)
Lemma defaults_by_layer_witness :
  resolve Sample.collaborators Sample.tuned_env (inr (JObj Sample.seeded))
  = inr (inr (mkResolved (JStr "a red bicycle") (JStr "bucket") (JStr "AKIA")
                (JStr "secret") (JStr "eu-west-1") (JStr default_negative_prompt)
                (JStr default_positive_magic) (JStr "16:9") (JInt 30)
                (JFloat 7.5%float) (JInt 7) 1024 768))
  ∧ request_env_literal Sample.seeded Sample.tuned_env "seed" "DEFAULT_SEED"
      Sample.int_of_str JInt 42 (JInt 7)
  ∧ request_env_literal Sample.seeded Sample.tuned_env "num_inference_steps"
      "NUM_INFERENCE_STEPS" Sample.int_of_str JInt 50 (JInt 30)
  ∧ request_or_literal Sample.seeded "negative_prompt"
      (JStr "ugly, deformed, disfigured, poor details, bad anatomy")
      (JStr default_negative_prompt).
Proof.
  assert (resolve Sample.collaborators Sample.tuned_env (inr (JObj Sample.seeded))
          = inr (inr (mkResolved (JStr "a red bicycle") (JStr "bucket") (JStr "AKIA")
                        (JStr "secret") (JStr "eu-west-1") (JStr default_negative_prompt)
                        (JStr default_positive_magic) (JStr "16:9") (JInt 30)
                        (JFloat 7.5%float) (JInt 7) 1024 768))) as Hres
    by (vm_compute; reflexivity).
  split; [exact Hres |].
  destruct (defaults_by_layer Sample.collaborators Sample.tuned_env Sample.seeded _ Hres)
    as (Hneg & _ & Hsteps & _ & Hseed & _).
  split; [exact Hseed |]. split; [exact Hsteps | exact Hneg].
Defined.

(** C4 on scenario A (default magic) and on a caller-supplied magic. *)
Lemma composed_prompt_reaches_model_witness :
  observed Sample.collaborators Sample.storage_env (inr (JObj Sample.bicycle))
    Sample.world0
  = [ GatewayCall
        (Sample.bicycle_args "a red bicycle Ultra HD, 4K, cinematic composition.");
      SinkCall Sample.bicycle_upload ]
  ∧ (∃ p m, Sample.bicycle !! "prompt" = Some (JStr p) ∧
            dict_get Sample.bicycle "positive_magic" (JStr default_positive_magic)
            = JStr m ∧
            pa_prompt
              (Sample.bicycle_args "a red bicycle Ultra HD, 4K, cinematic composition.")
            = p +:+ " " +:+ m)
  ∧ (∃ a rest,
       observed Sample.collaborators Sample.storage_env (inr (JObj Sample.split_late))
         Sample.world0 = GatewayCall a :: rest
       ∧ pa_prompt a = "a red" +:+ " " +:+ "bicycle").
Proof.
  assert (observed Sample.collaborators Sample.storage_env (inr (JObj Sample.bicycle))
            Sample.world0
          = [ GatewayCall
                (Sample.bicycle_args "a red bicycle Ultra HD, 4K, cinematic composition.");
              SinkCall Sample.bicycle_upload ]) as Hobs by (vm_compute; reflexivity).
  split; [exact Hobs |]. split.
  - apply (proj1 (composed_prompt_reaches_model Sample.collaborators Sample.storage_env
                    Sample.bicycle Sample.world0)).
    rewrite Hobs. apply list_elem_of_here.
  - apply (proj1 (proj2 (composed_prompt_reaches_model Sample.collaborators
                           Sample.storage_env Sample.split_late Sample.world0))
             (Sample.resolved "a red" "bicycle") "a red" "bicycle" (Cpu, 42)
             Sample.model); reflexivity.
Defined.

(** C9 on a request whose magic is the empty string. *)
Lemma empty_positive_magic_kept_witness :
  Sample.no_magic !! "positive_magic" = Some (JStr "")
  ∧ Sample.no_magic !! "prompt" = Some (JStr "a red bicycle")
  ∧ (∃ a rest,
       observed Sample.collaborators Sample.storage_env (inr (JObj Sample.no_magic))
         Sample.world0 = GatewayCall a :: rest
       ∧ pa_prompt a = "a red bicycle ").
Proof.
  split; [reflexivity |]. split; [reflexivity |].
  apply (proj2 (proj2 (empty_positive_magic_kept Sample.collaborators Sample.storage_env
                         Sample.no_magic Sample.world0 "a red bicycle"
                         eq_refl eq_refl))
           (Sample.resolved "a red bicycle" "") (Cpu, 42) Sample.model);
    reflexivity.
Defined.

(** C8 on two requests that split the same text differently between
    prompt and magic. *)
Lemma gateway_deterministic_in_job_witness :
  resolve Sample.collaborators Sample.storage_env (inr (JObj Sample.split_early))
  = inr (inr (Sample.resolved "a" "red bicycle"))
  ∧ resolve Sample.collaborators Sample.storage_env (inr (JObj Sample.split_late))
    = inr (inr (Sample.resolved "a red" "bicycle"))
  ∧ resolved_job (Sample.resolved "a" "red bicycle") = inr Sample.bicycle_job
  ∧ resolved_job (Sample.resolved "a red" "bicycle") = inr Sample.bicycle_job
  ∧ GatewayCall (Sample.bicycle_args "a red bicycle")
    ∈ observed Sample.collaborators Sample.storage_env (inr (JObj Sample.split_early))
        Sample.world0
  ∧ GatewayCall (Sample.bicycle_args "a red bicycle")
    ∈ observed Sample.collaborators Sample.storage_env (inr (JObj Sample.split_late))
        Sample.world1
  ∧ Sample.manual_seed Cpu (JInt 42)
    = inr (pa_generator (Sample.bicycle_args "a red bicycle")).
Proof.
  assert (resolve Sample.collaborators Sample.storage_env (inr (JObj Sample.split_early))
          = inr (inr (Sample.resolved "a" "red bicycle"))) as H1
    by (vm_compute; reflexivity).
  assert (resolve Sample.collaborators Sample.storage_env (inr (JObj Sample.split_late))
          = inr (inr (Sample.resolved "a red" "bicycle"))) as H2
    by (vm_compute; reflexivity).
  assert (resolved_job (Sample.resolved "a" "red bicycle") = inr Sample.bicycle_job)
    as J1 by reflexivity.
  assert (resolved_job (Sample.resolved "a red" "bicycle") = inr Sample.bicycle_job)
    as J2 by reflexivity.
  assert (GatewayCall (Sample.bicycle_args "a red bicycle")
          ∈ observed Sample.collaborators Sample.storage_env
              (inr (JObj Sample.split_early)) Sample.world0) as G1.
  { replace (observed Sample.collaborators Sample.storage_env
               (inr (JObj Sample.split_early)) Sample.world0)
      with [ GatewayCall (Sample.bicycle_args "a red bicycle");
             SinkCall (mkUploadArgs "image of a red bicycle" (JStr "bucket")
                         (JStr "generated_images/20250309_120007_uuid-0.png")
                         (JStr "AKIA") (JStr "secret") (JStr "us-east-1")) ]
      by (vm_compute; reflexivity).
    apply list_elem_of_here. }
  assert (GatewayCall (Sample.bicycle_args "a red bicycle")
          ∈ observed Sample.collaborators Sample.storage_env
              (inr (JObj Sample.split_late)) Sample.world1) as G2.
  { replace (observed Sample.collaborators Sample.storage_env
               (inr (JObj Sample.split_late)) Sample.world1)
      with [ GatewayCall (Sample.bicycle_args "a red bicycle");
             SinkCall (mkUploadArgs "image of a red bicycle" (JStr "bucket")
                         (JStr "generated_images/20250309_120007_uuid-1.png")
                         (JStr "AKIA") (JStr "secret") (JStr "us-east-1")) ]
      by (vm_compute; reflexivity).
    apply list_elem_of_here. }
  split; [exact H1 |]. split; [exact H2 |].
  split; [exact J1 |]. split; [exact J2 |]. split; [exact G1 |]. split; [exact G2 |].
  exact (proj1 (proj2 (gateway_deterministic_in_job Sample.collaborators
                         _ _ _ _ _ _ _ _ _ _ _ H1 H2 J1 J2 G1 G2))).
Defined.

(** C7 on two requests served in the same second. *)
Lemma derived_key_fresh_witness :
  Sample.bicycle !! "s3_key" = None
  ∧ SinkCall Sample.bicycle_upload
    ∈ observed Sample.collaborators Sample.storage_env (inr (JObj Sample.bicycle))
        Sample.world0
  ∧ up_key Sample.bicycle_upload = JStr "generated_images/20250309_120007_uuid-0.png"
  ∧ String.length (strftime (clock Sample.world0)) = 15%nat
  ∧ SinkCall Sample.portrait_upload
    ∈ observed Sample.collaborators Sample.storage_env (inr (JObj Sample.portrait))
        Sample.world1
  ∧ up_key Sample.portrait_upload ≠ up_key Sample.bicycle_upload.
Proof.
  assert (Sample.bicycle !! "s3_key" = None) as Hd by reflexivity.
  assert (SinkCall Sample.bicycle_upload
          ∈ observed Sample.collaborators Sample.storage_env
              (inr (JObj Sample.bicycle)) Sample.world0) as Hu.
  { replace (observed Sample.collaborators Sample.storage_env
               (inr (JObj Sample.bicycle)) Sample.world0)
      with [ GatewayCall
               (Sample.bicycle_args "a red bicycle Ultra HD, 4K, cinematic composition.");
             SinkCall Sample.bicycle_upload ]
      by (vm_compute; reflexivity).
    apply list_elem_of_further, list_elem_of_here. }
  assert (SinkCall Sample.portrait_upload
          ∈ observed Sample.collaborators Sample.storage_env
              (inr (JObj Sample.portrait)) Sample.world1) as Hu'.
  { replace (observed Sample.collaborators Sample.storage_env
               (inr (JObj Sample.portrait)) Sample.world1)
      with [ GatewayCall
               (mkPipeArgs "a portrait Ultra HD, 4K, cinematic composition."
                  (JStr default_negative_prompt) 928 1664 (JInt 50) (JFloat 4%float)
                  (Cpu, 42));
             SinkCall Sample.portrait_upload ]
      by (vm_compute; reflexivity).
    apply list_elem_of_further, list_elem_of_here. }
  destruct (derived_key_fresh Sample.collaborators Sample.storage_env Sample.bicycle
              Sample.world0 Sample.bicycle_upload Hd Hu)
    as (Hkey & Hshape & _ & _ & Hnext).
  split; [exact Hd |]. split; [exact Hu |]. split; [exact Hkey |].
  split.
  { apply Hshape. cbn. unfold valid_datetime. cbn. lia. }
  split; [exact Hu' |].
  apply (Hnext) with (env' := Sample.storage_env) (d' := Sample.portrait)
                     (t := Sample.noon).
  - intros i j H. apply (inj (String.app "uuid-")) in H. by apply (inj pretty) in H.
  - reflexivity.
  - reflexivity.
  - exact Hu'.
Defined.




(** * The further statements, run off the usual path *)

Lemma falsy_prompt_counts_as_missing_witness :
  Edge.zero_prompt !! "prompt" = Some (JInt 0)
  ∧ generate_image Sample.collaborators Sample.storage_env
      (inr (JObj Edge.zero_prompt)) Sample.world0
    = (error_response 400 msg_missing_prompt, Sample.world0).
Proof.
  split; [reflexivity |].
  apply (falsy_prompt_counts_as_missing Sample.collaborators Sample.storage_env
           Edge.zero_prompt Sample.world0 (JInt 0)); [reflexivity |].
  do 2 apply list_elem_of_further. apply list_elem_of_here.
Defined.

Lemma environment_defaults_converted_eagerly_witness :
  int_env Sample.collaborators Edge.spelled_env "NUM_INFERENCE_STEPS" default_steps
  = inl Edge.spelled_error
  ∧ generate_image Sample.collaborators Edge.spelled_env
      (inr (JObj Sample.seeded)) Sample.world0
    = (error_response 500 "invalid literal for int() with base 10: 'fifty'",
       Sample.world0)
  ∧ observed Sample.collaborators Edge.spelled_env
      (inr (JObj Sample.seeded)) Sample.world0 = [].
Proof.
  split; [reflexivity |].
  apply (environment_defaults_converted_eagerly Sample.collaborators Edge.spelled_env
           Sample.seeded Sample.world0 Edge.spelled_error);
    [reflexivity | reflexivity | left; reflexivity].
Defined.

Lemma unhashable_aspect_ratio_is_server_error_witness :
  reaches_aspect_check Sample.collaborators Sample.storage_env Edge.listed_aspect
  ∧ generate_image Sample.collaborators Sample.storage_env
      (inr (JObj Edge.listed_aspect)) Sample.world0
    = (error_response 500 "unhashable type: 'list'", Sample.world0)
  ∧ observed Sample.collaborators Sample.storage_env
      (inr (JObj Edge.listed_aspect)) Sample.world0 = [].
Proof.
  assert (reaches_aspect_check Sample.collaborators Sample.storage_env
            Edge.listed_aspect) as Hreach.
  { split; [reflexivity |]. split; [reflexivity |]. split; [| split]; by eexists. }
  split; [exact Hreach |].
  apply (unhashable_aspect_ratio_is_server_error Sample.collaborators
           Sample.storage_env Edge.listed_aspect Sample.world0
           (JArr [JInt 16; JInt 9]) Hreach); [reflexivity |].
  left. by eexists.
Defined.

Lemma aspect_ratio_default_needs_absence_witness :
  reaches_aspect_check Sample.collaborators Sample.storage_env Sample.bicycle
  ∧ (∃ r, resolve Sample.collaborators Sample.storage_env (inr (JObj Sample.bicycle))
          = inr (inr r) ∧
          r_aspect_ratio r = JStr "16:9" ∧ r_width r = 1024 ∧ r_height r = 768)
  ∧ reaches_aspect_check Sample.collaborators Sample.storage_env Edge.null_aspect
  ∧ generate_image Sample.collaborators Sample.storage_env
      (inr (JObj Edge.null_aspect)) Sample.world0
    = (error_response 400 msg_invalid_aspect, Sample.world0).
Proof.
  assert (∀ d, truthy (dict_get d "prompt" JNull) = true →
               all_truthy (storage_fields Sample.storage_env d) = true →
               reaches_aspect_check Sample.collaborators Sample.storage_env d)
    as Hreach.
  { intros d Hp Hs. split; [done |]. split; [done |].
    split; [| split]; by eexists. }
  assert (reaches_aspect_check Sample.collaborators Sample.storage_env Sample.bicycle)
    as H1 by (by apply Hreach).
  assert (reaches_aspect_check Sample.collaborators Sample.storage_env Edge.null_aspect)
    as H2 by (by apply Hreach).
  split; [exact H1 |]. split.
  { apply (proj1 (aspect_ratio_default_needs_absence Sample.collaborators
                    Sample.storage_env Sample.bicycle Sample.world0 H1)).
    reflexivity. }
  split; [exact H2 |].
  apply (proj2 (aspect_ratio_default_needs_absence Sample.collaborators
                  Sample.storage_env Edge.null_aspect Sample.world0 H2) JNull);
    [reflexivity | by left].
Defined.

Lemma non_string_prompt_never_reaches_model_witness :
  resolve Sample.collaborators Sample.storage_env (inr (JObj Edge.numeric_prompt))
  = inr (inr Edge.numeric_resolved)
  ∧ observed Sample.collaborators Sample.storage_env
      (inr (JObj Edge.numeric_prompt)) Sample.world0 = []
  ∧ generate_image Sample.collaborators Sample.storage_env
      (inr (JObj Edge.numeric_prompt)) Sample.world0
    = (error_response 500 "'int' object is not subscriptable", Sample.world0).
Proof.
  assert (resolve Sample.collaborators Sample.storage_env
            (inr (JObj Edge.numeric_prompt))
          = inr (inr Edge.numeric_resolved)) as Hres by reflexivity.
  split; [exact Hres |].
  destruct (non_string_prompt_never_reaches_model Sample.collaborators
              Sample.storage_env (inr (JObj Edge.numeric_prompt)) Sample.world0
              Edge.numeric_resolved Hres)
    as (Hnone & e & Hsite & Hrun).
  { left. intros p. discriminate. }
  split; [exact Hnone |].
  rewrite Hrun. by destruct Hsite as [[= <-] | [= <-]].
Defined.

Lemma first_image_only_witness :
  (generate_image Edge.no_images Sample.storage_env (inr (JObj Sample.bicycle))
     Sample.world0
   = (error_response 500 "list index out of range",
      with_call Sample.world0
        (GatewayCall
           (Sample.bicycle_args "a red bicycle Ultra HD, 4K, cinematic composition.")))
   ∧ observed Edge.no_images Sample.storage_env (inr (JObj Sample.bicycle))
       Sample.world0
     = [GatewayCall
          (Sample.bicycle_args "a red bicycle Ultra HD, 4K, cinematic composition.")])
  ∧ ∃ u, observed Edge.two_images Sample.storage_env (inr (JObj Sample.bicycle))
           Sample.world0
         = [GatewayCall
              (Sample.bicycle_args
                 "a red bicycle Ultra HD, 4K, cinematic composition.");
            SinkCall u]
         ∧ up_image u
           = "first of a red bicycle Ultra HD, 4K, cinematic composition.".
Proof.
  split.
  - apply (proj1 (first_image_only Edge.no_images Sample.storage_env
                    (inr (JObj Sample.bicycle)) Sample.world0
                    (Sample.resolved "a red bicycle" default_positive_magic)
                    (Sample.bicycle_args
                       "a red bicycle Ultra HD, 4K, cinematic composition.")
                    Edge.no_image_model eq_refl eq_refl eq_refl eq_refl)).
    reflexivity.
  - apply (proj2 (first_image_only Edge.two_images Sample.storage_env
                    (inr (JObj Sample.bicycle)) Sample.world0
                    (Sample.resolved "a red bicycle" default_positive_magic)
                    (Sample.bicycle_args
                       "a red bicycle Ultra HD, 4K, cinematic composition.")
                    Edge.two_image_model eq_refl eq_refl eq_refl eq_refl)
             "first of a red bicycle Ultra HD, 4K, cinematic composition."
             ["second of a red bicycle Ultra HD, 4K, cinematic composition."]).
    reflexivity.
Defined.

Lemma caller_key_used_verbatim_witness :
  Edge.own_key !! "s3_key" = Some (JStr "out/bicycle.png")
  ∧ status (fst (generate_image Sample.collaborators Sample.storage_env
                   (inr (JObj Edge.own_key)) Sample.world0)) = 200
  ∧ ∃ m, body (fst (generate_image Sample.collaborators Sample.storage_env
                      (inr (JObj Edge.own_key)) Sample.world0)) = JObj m
         ∧ m !! "s3_key" = Some (JStr "out/bicycle.png").
Proof.
  split; [reflexivity |]. split; [reflexivity |].
  apply (proj2 (caller_key_used_verbatim Sample.collaborators Sample.storage_env
                  Edge.own_key Sample.world0 (JStr "out/bicycle.png") eq_refl)).
  reflexivity.
Defined.

Lemma response_matches_upload_witness :
  status (fst (generate_image Sample.collaborators Sample.storage_env
                 (inr (JObj Sample.bicycle)) Sample.world0)) = 200
  ∧ ∃ a u m,
      observed Sample.collaborators Sample.storage_env (inr (JObj Sample.bicycle))
        Sample.world0 = [GatewayCall a; SinkCall u] ∧
      body (fst (generate_image Sample.collaborators Sample.storage_env
                   (inr (JObj Sample.bicycle)) Sample.world0)) = JObj m ∧
      m !! "s3_bucket" = Some (up_bucket u) ∧
      m !! "s3_key" = Some (up_key u) ∧
      m !! "image_url" = Some (JStr (s3_url_of Sample.collaborators u)).
Proof.
  split; [reflexivity |].
  destruct (response_matches_upload Sample.collaborators Sample.storage_env
              (inr (JObj Sample.bicycle)) Sample.world0 eq_refl)
    as (a & u & m & Hobs & Hbody & Hb & Hk & Hurl & _).
  by exists a, u, m.
Defined.

Lemma metadata_echoes_resolution_witness :
  status (fst (generate_image Sample.collaborators Sample.storage_env
                 (inr (JObj Sample.portrait)) Sample.world0)) = 200
  ∧ ∃ m meta,
      body (fst (generate_image Sample.collaborators Sample.storage_env
                   (inr (JObj Sample.portrait)) Sample.world0)) = JObj m ∧
      m !! "metadata" = Some (JObj meta) ∧
      meta !! "prompt" = Some (JStr "a portrait") ∧
      meta !! "timestamp" = Some (JStr "20250309_120007").
Proof.
  split; [reflexivity |].
  destruct (metadata_echoes_resolution Sample.collaborators Sample.storage_env
              Sample.portrait Sample.world0 eq_refl)
    as (m & meta & label & width & height & Hbody & Hmeta & _ & Hp & _ & _ & _ & _
        & _ & Hts).
  exists m, meta. split; [exact Hbody |]. split; [exact Hmeta |].
  split; [exact Hp | exact Hts].
Defined.

Lemma derived_key_unambiguous_witness :
  valid_datetime Sample.noon ∧ valid_datetime Edge.next_second
  ∧ (derived_key (strftime Sample.noon) "uuid-0"
     = derived_key (strftime Edge.next_second) "uuid-0"
     ↔ Sample.noon = Edge.next_second ∧ "uuid-0" = "uuid-0").
Proof.
  assert (valid_datetime Sample.noon) as V1 by (unfold valid_datetime; cbn; lia).
  assert (valid_datetime Edge.next_second) as V2 by (unfold valid_datetime; cbn; lia).
  split; [exact V1 |]. split; [exact V2 |].
  exact (derived_key_unambiguous Sample.noon Edge.next_second "uuid-0" "uuid-0" V1 V2).
Defined.

Lemma startup_binds_moved_pipeline_witness :
  main Edge.loader Edge.unloaded Sample.storage_env
  = inr (set_pipe Edge.unloaded (Some Sample.model), 8080)
  ∧ ∃ loaded moved,
      from_pretrained Edge.loader "Qwen/Qwen-Image" BFloat16 = inr loaded ∧
      to_device Edge.loader loaded Cuda = inr moved ∧
      pipe (set_pipe Edge.unloaded (Some Sample.model)) = Some moved.
Proof.
  split; [reflexivity |].
  destruct (startup_binds_moved_pipeline Edge.unloaded Edge.loader Sample.storage_env
              (set_pipe Edge.unloaded (Some Sample.model)) 8080 eq_refl)
    as (loaded & moved & Hload & Hmove & Hpipe & _).
  by exists loaded, moved.
Defined.

Lemma unloaded_model_serves_nothing_witness :
  pipe Edge.unloaded = None
  ∧ snd (generate_image Edge.unloaded Sample.storage_env (inr (JObj Sample.bicycle))
           Sample.world0) = Sample.world0
  ∧ fst (generate_image Edge.unloaded Sample.storage_env (inr (JObj Sample.bicycle))
           Sample.world0)
    = error_response 500 "'NoneType' object is not callable".
Proof.
  split; [reflexivity |].
  destruct (unloaded_model_serves_nothing Edge.unloaded Sample.storage_env
              (inr (JObj Sample.bicycle)) Sample.world0 eq_refl)
    as (Hworld & _ & Hcall & _).
  split; [exact Hworld |].
  apply (Hcall (Sample.resolved "a red bicycle" default_positive_magic)
           Edge.cuda_args); reflexivity.
Defined.

Lemma request_numbers_reach_model_unconverted_witness :
  GatewayCall Edge.tuned_args
  ∈ observed Sample.collaborators Sample.storage_env (inr (JObj Edge.tuned))
      Sample.world0
  ∧ pa_num_inference_steps Edge.tuned_args = JStr "fifty"
  ∧ pa_true_cfg_scale Edge.tuned_args = JInt 7
  ∧ Sample.manual_seed Cpu (JInt 7) = inr (pa_generator Edge.tuned_args).
Proof.
  assert (GatewayCall Edge.tuned_args
          ∈ observed Sample.collaborators Sample.storage_env (inr (JObj Edge.tuned))
              Sample.world0) as Hcall.
  { replace (observed Sample.collaborators Sample.storage_env
               (inr (JObj Edge.tuned)) Sample.world0)
      with [ GatewayCall Edge.tuned_args;
             SinkCall
               (mkUploadArgs
                  "image of a red bicycle Ultra HD, 4K, cinematic composition."
                  (JStr "bucket")
                  (JStr "generated_images/20250309_120007_uuid-0.png")
                  (JStr "AKIA") (JStr "secret") (JStr "us-east-1")) ]
      by (vm_compute; reflexivity).
    apply list_elem_of_here. }
  destruct (request_numbers_reach_model_unconverted Sample.collaborators
              Sample.storage_env Edge.tuned Sample.world0 Edge.tuned_args Hcall)
    as (Hsteps & Hcfg & _ & Hseed & _).
  split; [exact Hcall |].
  split; [by apply Hsteps |]. split; [by apply Hcfg |]. by apply (Hseed (JInt 7)).
Defined.
